(** * Gateway setup tooling: data models and configuration manager

    A shallow embedding of [gateway/aws_setup/models.py],
    [gateway/aws_setup/config_manager.py] and [validate_setup.py].

    Conventions of the embedding.
    - A Python [str] is a [string] whose characters are the code points
      U+0000 .. U+00FF; the character classes below are Python's own
      ([str.isspace], [str.isdigit], [str.isalnum]) on that range.
    - Objects mutated in place (a [ValidationResult], a [SetupState], a
      configuration [dict]) are threaded explicitly: every method takes the
      object and returns the updated one.
    - A configuration [dict] keeps insertion order, as Python's does: it is an
      association list whose lookup returns the first binding of a key.  Its
      values are the scalars a YAML document commonly holds: [None], booleans,
      integers and strings.
    - The file system maps a path to the text of the file stored there;
      directories are implicit and writing always succeeds.
    - PyYAML is external: [yaml.safe_load] and [yaml.dump] are parameters of
      the configuration manager section.
    - Calls to [logger] only write to the log and are left out. *)

From Stdlib Require Import ZArith Lia Bool List Ascii String DecimalString.
From stdpp Require Import gmap strings.

Open Scope string_scope.
Open Scope list_scope.

(** ** Python strings *)

Module PyStr.

Definition code (c : ascii) : N := N_of_ascii c.

Definition in_range (lo hi : N) (c : ascii) : bool :=
  ((lo <=? code c) && (code c <=? hi))%N.

Definition is_code (n : N) (c : ascii) : bool := (code c =? n)%N.

(** [c.isspace()]: TAB..CR, FS..US, SPACE, NEL, NBSP. *)
Definition isspace_char (c : ascii) : bool :=
  in_range 9 13 c || in_range 28 32 c || is_code 133 c || is_code 160 c.

(** The ASCII digits '0'..'9'. *)
Definition isdecimal_char (c : ascii) : bool := in_range 48 57 c.

(** [c.isdigit()]: the ASCII digits and the superscripts 2, 3, 1. *)
Definition isdigit_char (c : ascii) : bool :=
  isdecimal_char c || is_code 178 c || is_code 179 c || is_code 185 c.

(** [c.isalpha()]. *)
Definition isalpha_char (c : ascii) : bool :=
  in_range 65 90 c || in_range 97 122 c
  || is_code 170 c || is_code 181 c || is_code 186 c
  || in_range 192 214 c || in_range 216 246 c || in_range 248 255 c.

(** [c.isalnum()]: alphabetic, digit, or one of the vulgar fractions. *)
Definition isalnum_char (c : ascii) : bool :=
  isalpha_char c || isdigit_char c || in_range 188 190 c.

Fixpoint all (p : ascii -> bool) (s : string) : bool :=
  match s with
  | EmptyString => true
  | String c s' => p c && all p s'
  end.

Fixpoint any (p : ascii -> bool) (s : string) : bool :=
  match s with
  | EmptyString => false
  | String c s' => p c || any p s'
  end.

Definition is_empty (s : string) : bool :=
  match s with EmptyString => true | String _ _ => false end.

(** [s.isdigit()]: false on the empty string. *)
Definition isdigit (s : string) : bool := negb (is_empty s) && all isdigit_char s.

(** [s.isalnum()]: false on the empty string. *)
Definition isalnum (s : string) : bool := negb (is_empty s) && all isalnum_char s.

(** [s.lstrip()]. *)
Fixpoint lstrip (s : string) : string :=
  match s with
  | EmptyString => EmptyString
  | String c s' => if isspace_char c then lstrip s' else s
  end.

(** [s.rstrip()]. *)
Fixpoint rstrip (s : string) : string :=
  match s with
  | EmptyString => EmptyString
  | String c s' =>
      match rstrip s' with
      | EmptyString => if isspace_char c then EmptyString else String c EmptyString
      | String d r => String c (String d r)
      end
  end.

(** [s.strip()]. *)
Definition strip (s : string) : string := rstrip (lstrip s).

(** [s.replace(x, '')] for a one-character [x]. *)
Fixpoint remove_char (x : ascii) (s : string) : string :=
  match s with
  | EmptyString => EmptyString
  | String c s' => if Ascii.eqb c x then remove_char x s' else String c (remove_char x s')
  end.

(** [x in s] for a one-character [x]. *)
Definition contains_char (x : ascii) (s : string) : bool := any (Ascii.eqb x) s.

(** [s.split(x)[0]]: the segment before the first [x], all of [s] if
    there is none. *)
Fixpoint split_head (x : ascii) (s : string) : string :=
  match s with
  | EmptyString => EmptyString
  | String c s' => if Ascii.eqb c x then EmptyString else String c (split_head x s')
  end.

(** [s.split(x, 1)] when [x in s]: the text before and after the first
    [x]; [None] when [x] does not occur. *)
Fixpoint split_once (x : ascii) (s : string) : option (string * string) :=
  match s with
  | EmptyString => None
  | String c s' =>
      if Ascii.eqb c x then Some (EmptyString, s')
      else match split_once x s' with
           | Some (k, v) => Some (String c k, v)
           | None => None
           end
  end.

(** [s.startswith(p)]. *)
Fixpoint startswith (p s : string) : bool :=
  match p, s with
  | EmptyString, _ => true
  | String _ _, EmptyString => false
  | String a p', String b s' => Ascii.eqb a b && startswith p' s'
  end.

Definition LF : ascii := ascii_of_nat 10.
Definition CR : ascii := ascii_of_nat 13.
Definition newline : string := String LF EmptyString.

(** The lines a text-mode file object yields when iterated, with universal
    newlines: each line keeps its terminator, translated to LF. *)
Fixpoint file_lines_from (cur : string) (s : string) : list string :=
  match s with
  | EmptyString => if is_empty cur then [] else [cur]
  | String c s' =>
      if Ascii.eqb c LF then (cur +:+ newline) :: file_lines_from EmptyString s'
      else if Ascii.eqb c CR then
        match s' with
        | String c2 s'' =>
            if Ascii.eqb c2 LF then (cur +:+ newline) :: file_lines_from EmptyString s''
            else (cur +:+ newline) :: file_lines_from EmptyString s'
        | EmptyString => [cur +:+ newline]
        end
      else file_lines_from (cur +:+ String c EmptyString) s'
  end.

Definition file_lines (text : string) : list string := file_lines_from EmptyString text.

(** [x in xs] for a list of strings. *)
Definition list_in (x : string) (xs : list string) : bool := existsb (String.eqb x) xs.

(** [xs.remove(x)]: drops the first occurrence (the callers test [x in xs]
    first, so the [ValueError] of a missing element never arises). *)
Fixpoint list_remove (x : string) (xs : list string) : list string :=
  match xs with
  | [] => []
  | y :: xs' => if String.eqb x y then xs' else y :: list_remove x xs'
  end.

End PyStr.

(** ** Python values found in a configuration document *)

Inductive pyval :=
| PNone
| PBool (b : bool)
| PInt (z : Z)
| PStr (s : string).

(** Truth value of an object in a condition. *)
Definition truthy (v : pyval) : bool :=
  match v with
  | PNone => false
  | PBool b => b
  | PInt z => negb (z =? 0)%Z
  | PStr s => negb (PyStr.is_empty s)
  end.

(** [str(v)]. *)
Definition py_str (v : pyval) : string :=
  match v with
  | PNone => "None"
  | PBool true => "True"
  | PBool false => "False"
  | PInt z => NilZero.string_of_int (Z.to_int z)
  | PStr s => s
  end.

(** [isinstance(v, str)]. *)
Definition is_str (v : pyval) : bool :=
  match v with PStr _ => true | _ => false end.

(** A [dict] with string keys, in insertion order. *)
Definition pydict := list (string * pyval).

(** [d.get(k)] / [d[k]] when [k in d]. *)
Fixpoint dict_get (k : string) (d : pydict) : option pyval :=
  match d with
  | [] => None
  | (k', v) :: d' => if String.eqb k k' then Some v else dict_get k d'
  end.

(** [d[k] = v]: overwrites in place, or appends a new key. *)
Fixpoint dict_set (k : string) (v : pyval) (d : pydict) : pydict :=
  match d with
  | [] => [(k, v)]
  | (k', v') :: d' => if String.eqb k k' then (k', v) :: d' else (k', v') :: dict_set k v d'
  end.

Definition dict_keys (d : pydict) : list string := map fst d.

(** A [for] loop over [xs] that threads the state [s] through [body]. *)
Definition for_each {A S : Type} (xs : list A) (body : S -> A -> S) (s : S) : S :=
  fold_left body xs s.

(** ** models.py *)

Inductive ValidationStatus := VALID | INVALID | WARNING.

Inductive SetupStatus := SUCCESS | FAILED | PARTIAL.

Module ValidationError.
Record t := mk {
  field : string;
  message : string;
  suggestion : option string;
  error_code : option string
}.
End ValidationError.

Module ValidationResult.

Record t := mk {
  is_valid : bool;
  status : ValidationStatus;
  errors : list ValidationError.t;
  warnings : list string
}.

Definition add_error (self : t) (field message : string)
    (suggestion error_code : option string) : t :=
  {| is_valid := false;
     status := INVALID;
     errors := errors self ++ [ValidationError.mk field message suggestion error_code];
     warnings := warnings self |}.

Definition add_warning (self : t) (message : string) : t :=
  {| is_valid := is_valid self;
     status := match status self with VALID => WARNING | s => s end;
     errors := errors self;
     warnings := warnings self ++ [message] |}.

End ValidationResult.

Module SetupError.
Record t := mk {
  component : string;
  error_type : string;
  message : string;
  suggestion : option string;
  recoverable : bool
}.
End SetupError.

Module SetupResult.

Record t := mk {
  success : bool;
  status : SetupStatus;
  gateway_url : option string;
  provider_arn : option string;
  errors : list SetupError.t;
  warnings : list string
}.

Definition add_error (self : t) (component error_type message : string)
    (suggestion : option string) (recoverable : bool) : t :=
  {| success := false;
     status := match status self with
               | SUCCESS => if negb recoverable then FAILED else PARTIAL
               | s => s
               end;
     gateway_url := gateway_url self;
     provider_arn := provider_arn self;
     errors := errors self
               ++ [SetupError.mk component error_type message suggestion recoverable];
     warnings := warnings self |}.

(** [add_error] called with the fields of an error record. *)
Definition add (self : t) (e : SetupError.t) : t :=
  add_error self (SetupError.component e) (SetupError.error_type e)
    (SetupError.message e) (SetupError.suggestion e) (SetupError.recoverable e).

End SetupResult.

Module SetupState.

Record t := mk {
  step : string;
  completed_steps : list string;
  failed_steps : list string;
  configuration : pydict;
  timestamp : Z
}.

Definition mark_step_completed (self : t) (s : string) : t :=
  let completed :=
    if negb (PyStr.list_in s (completed_steps self))
    then completed_steps self ++ [s] else completed_steps self in
  let failed :=
    if PyStr.list_in s (failed_steps self)
    then PyStr.list_remove s (failed_steps self) else failed_steps self in
  {| step := step self;
     completed_steps := completed;
     failed_steps := failed;
     configuration := configuration self;
     timestamp := timestamp self |}.

Definition mark_step_failed (self : t) (s : string) : t :=
  {| step := step self;
     completed_steps := completed_steps self;
     failed_steps :=
       if negb (PyStr.list_in s (failed_steps self))
       then failed_steps self ++ [s] else failed_steps self;
     configuration := configuration self;
     timestamp := timestamp self |}.

Definition can_resume_from (self : t) (s : string) : bool :=
  PyStr.list_in s (completed_steps self) || String.eqb s (step self).

(** A state as the constructor builds it from a step name alone. *)
Definition fresh (s : string) (now : Z) : t := mk s [] [] [] now.

(** A call of one of the two marking methods. *)
Inductive call :=
| Completed (s : string)
| Failed (s : string).

Definition perform (self : t) (c : call) : t :=
  match c with
  | Completed s => mark_step_completed self s
  | Failed s => mark_step_failed self s
  end.

Definition run (calls : list call) (self : t) : t := fold_left perform calls self.

End SetupState.

(** ** config_manager.py *)

(** The exceptions the manager can let escape. *)
Inductive exn := FileNotFoundError | YAMLError | AttributeError.

(** A call either returns a value or raises. *)
Inductive outcome (A : Type) :=
| Return (a : A)
| Raise (e : exn).

Arguments Return {A} a.
Arguments Raise {A} e.

#[global] Instance outcome_ret : MRet outcome := fun A a => Return a.

#[global] Instance outcome_bind : MBind outcome := fun A B f c =>
  match c with
  | Return a => f a
  | Raise e => Raise e
  end.

(** A [for] loop whose body may raise. *)
Fixpoint for_each_m {A S : Type} (xs : list A) (body : S -> A -> outcome S) (s : S)
    : outcome S :=
  match xs with
  | [] => Return s
  | x :: xs' => s' ← body s x; for_each_m xs' body s'
  end.

(** [v.strip()]: only a [str] has the method. *)
Definition py_strip (v : pyval) : outcome string :=
  match v with
  | PStr s => Return (PyStr.strip s)
  | _ => Raise AttributeError
  end.

(** What [yaml.safe_load] makes of a document: nothing (an empty or null
    document) or a mapping.  A document whose top level is a list or a
    scalar is not a configuration and is outside this type. *)
Inductive document :=
| DNone
| DDict (d : pydict).

(** [Path(dir) / name], written out as it is; the normal form [pathlib]
    keeps (no leading [./], no doubled slash) is not computed, so two
    spellings of one path are two keys of the file system. *)
Definition joinpath (dir name : string) : string := dir +:+ "/" +:+ name.

(** The file system: the text stored at each path. *)
Abbreviation filesystem := (gmap string string).

(** [base.update(other)]: the bindings of [other] win. *)
Definition dict_update (base other : gmap string string) : gmap string string :=
  other ∪ base.

Module ConfigurationManager.

Record t := mk {
  config_dir : string;
  config_file : string;
  env_file : string
}.

(** [__init__]. *)
Definition init (config_dir : string) : t :=
  mk config_dir (joinpath config_dir "config.yaml") (joinpath config_dir ".env").

(** *** validate_config *)

Definition required_aws_params : list string :=
  ["account_id"; "region"; "role_name"; "endpoint_url";
   "credential_provider_endpoint_url"].

Definition required_cognito_params : list string := ["user_pool_id"; "client_id"].

Definition required_gateway_params : list string :=
  ["gateway_name"; "credential_provider_name"].

Definition placeholder_values : list string :=
  ["YOUR_ACCOUNT_ID"; "REGION"; ""; "YOUR_USER_POOL_ID"; "YOUR_CLIENT_ID";
   "your-bucket-name"].

(** [param not in config or not config[param]]. *)
Definition missing_or_empty (config : pydict) (param : string) : bool :=
  match dict_get param config with
  | None => true
  | Some v => negb (truthy v)
  end.

(** [key in config and config[key]]: the value when the guard holds. *)
Definition present (config : pydict) (key : string) : option pyval :=
  match dict_get key config with
  | Some v => if truthy v then Some v else None
  | None => None
  end.

Definition check_required_aws (config : pydict) (result : ValidationResult.t)
    : ValidationResult.t :=
  for_each required_aws_params (fun result param =>
    if missing_or_empty config param then
      ValidationResult.add_error result param
        ("Required AWS parameter '" +:+ param +:+ "' is missing or empty")
        (Some ("Add '" +:+ param +:+ "' to your config.yaml file")) None
    else result) result.

Definition check_required_cognito (config : pydict) (result : ValidationResult.t)
    : ValidationResult.t :=
  for_each required_cognito_params (fun result param =>
    if missing_or_empty config param then
      ValidationResult.add_error result param
        ("Required Cognito parameter '" +:+ param +:+ "' is missing or empty")
        (Some "Run deployment/setup_cognito.sh to generate Cognito configuration") None
    else result) result.

Definition check_required_gateway (config : pydict) (result : ValidationResult.t)
    : ValidationResult.t :=
  for_each required_gateway_params (fun result param =>
    if missing_or_empty config param then
      ValidationResult.add_error result param
        ("Required gateway parameter '" +:+ param +:+ "' is missing or empty")
        (Some ("Add '" +:+ param +:+ "' to your config.yaml file")) None
    else result) result.

Definition check_account_id (config : pydict) (result : ValidationResult.t)
    : ValidationResult.t :=
  match present config "account_id" with
  | Some v =>
      let account_id := PyStr.strip (py_str v) in
      if negb (PyStr.isdigit account_id) || negb (String.length account_id =? 12)%nat then
        ValidationResult.add_error result "account_id"
          ("Invalid AWS account ID format: " +:+ account_id)
          (Some "AWS account ID must be a 12-digit number") None
      else result
  | None => result
  end.

Definition check_region (config : pydict) (result : ValidationResult.t)
    : outcome ValidationResult.t :=
  match present config "region" with
  | Some v =>
      region ← py_strip v;
      if negb (PyStr.isalnum
                 (PyStr.remove_char "_" (PyStr.remove_char "-" region))) then
        Return (ValidationResult.add_error result "region"
          ("Invalid AWS region format: " +:+ region)
          (Some "AWS region should be in format like 'us-east-1'") None)
      else Return result
  | None => Return result
  end.

Definition check_endpoint_urls (config : pydict) (result : ValidationResult.t)
    : outcome ValidationResult.t :=
  for_each_m ["endpoint_url"; "credential_provider_endpoint_url"]
    (fun result url_param =>
       match present config url_param with
       | Some v =>
           url ← py_strip v;
           if negb (PyStr.startswith "https://" url) then
             Return (ValidationResult.add_error result url_param
               ("Invalid endpoint URL: " +:+ url)
               (Some "Endpoint URLs must use HTTPS") None)
           else Return result
       | None => Return result
       end) result.

Definition check_user_pool_id (config : pydict) (result : ValidationResult.t)
    : outcome ValidationResult.t :=
  match present config "user_pool_id" with
  | Some v =>
      pool_id ← py_strip v;
      if negb (PyStr.contains_char "_" pool_id)
         || negb (PyStr.isalnum
                    (PyStr.remove_char "-" (PyStr.split_head "_" pool_id))) then
        Return (ValidationResult.add_error result "user_pool_id"
          ("Invalid Cognito User Pool ID format: " +:+ pool_id)
          (Some "User Pool ID should be in format 'region_POOLID'") None)
      else Return result
  | None => Return result
  end.

Definition check_placeholders (config : pydict) (result : ValidationResult.t)
    : ValidationResult.t :=
  for_each config (fun result item =>
    match item with
    | (key, PStr value) =>
        if PyStr.list_in value placeholder_values then
          ValidationResult.add_error result key
            ("Configuration parameter '" +:+ key
               +:+ "' contains placeholder value: " +:+ value)
            (Some ("Replace '" +:+ value +:+ "' with your actual " +:+ key)) None
        else result
    | _ => result
    end) result.

Definition validate_config (config : pydict) : outcome ValidationResult.t :=
  let result := ValidationResult.mk true VALID [] [] in
  let result := check_required_aws config result in
  let result := check_required_cognito config result in
  let result := check_required_gateway config result in
  let result := check_account_id config result in
  result ← check_region config result;
  result ← check_endpoint_urls config result;
  result ← check_user_pool_id config result;
  let result := check_placeholders config result in
  Return result.

(** *** Files *)

Definition identifier_keys : list string :=
  ["account_id"; "role_name"; "user_pool_id"; "client_id"; "s3_bucket";
   "credential_provider_name"].

(** The clean-up loop of [load_config]: a [str] stored under one of the
    identifier keys is replaced by its stripped form. *)
Definition strip_identifiers (config : pydict) : pydict :=
  for_each identifier_keys (fun config key =>
    match dict_get key config with
    | Some (PStr s) => dict_set key (PStr (PyStr.strip s)) config
    | _ => config
    end) config.

Definition config_template : pydict :=
  [("account_id", PStr "YOUR_ACCOUNT_ID");
   ("region", PStr "us-east-1");
   ("role_name", PStr "SRE-Agent-Gateway-Role ");
   ("endpoint_url", PStr "https://bedrock-agentcore-control.us-east-1.amazonaws.com");
   ("credential_provider_endpoint_url",
    PStr "https://us-east-1.prod.agent-credential-provider.cognito.aws.dev");
   ("user_pool_id", PStr "YOUR_USER_POOL_ID");
   ("client_id", PStr "YOUR_CLIENT_ID");
   ("s3_bucket", PStr "");
   ("s3_path_prefix", PStr "devops-multiagent-demo");
   ("credential_provider_name", PStr "sre-agent-api-key-credential-provider");
   ("provider_arn",
    PStr ("arn:aws:bedrock-agentcore:REGION:ACCOUNT_ID:token-vault/default/"
          +:+ "apikeycredentialprovider/sre-agent-api-key-credential-provider"));
   ("gateway_name", PStr "MyAgentCoreGateway");
   ("gateway_description", PStr "AgentCore Gateway for API Integration");
   ("target_description", PStr "S3 target for OpenAPI schema")].

(** Each line followed by a line feed. *)
Definition unlines (ls : list string) : string :=
  fold_right (fun l acc => l +:+ PyStr.newline +:+ acc) "" ls.

Definition env_template : string :=
  unlines
    ["# Environment Variables for SRE Agent Gateway Setup";
     "# Copy this file to .env and fill in your actual values";
     "";
     "# Cognito Configuration for Token Generation";
     "COGNITO_DOMAIN=https://yourdomain.auth.us-west-2.amazoncognito.com";
     "COGNITO_CLIENT_ID=your-client-id-here";
     "COGNITO_CLIENT_SECRET=your-client-secret-here";
     "COGNITO_USER_POOL_ID=your-user-pool-id-here";
     "";
     "# Backend API Key for credential provider";
     "BACKEND_API_KEY=your-backend-api-key-here";
     "";
     "# Anthropic API Credentials (optional - for Anthropic models)";
     "ANTHROPIC_API_KEY=your-anthropic-api-key-here"].

(** The path a call works on: the argument when it is given and non-empty,
    the manager's [config_file] otherwise. *)
Definition target_path (self : t) (config_path : option string) : string :=
  match config_path with
  | Some p => if PyStr.is_empty p then config_file self else p
  | None => config_file self
  end.

Definition load_environment_variables (self : t) (fs : filesystem)
    : gmap string string :=
  match fs !! env_file self with
  | Some text =>
      for_each (PyStr.file_lines text) (fun (env_vars : gmap string string) line =>
        let line := PyStr.strip line in
        if negb (PyStr.is_empty line) && negb (PyStr.startswith "#" line)
           && PyStr.contains_char "=" line then
          match PyStr.split_once "=" line with
          | Some (key, value) => <[PyStr.strip key := PyStr.strip value]> env_vars
          | None => env_vars
          end
        else env_vars) ∅
  | None => ∅
  end.

Definition validate_environment_variables (self : t) (environ : gmap string string)
    (required_vars : list string) (fs : filesystem) : ValidationResult.t :=
  let result := ValidationResult.mk true VALID [] [] in
  let env_vars := dict_update environ (load_environment_variables self fs) in
  for_each required_vars (fun result var =>
    if match env_vars !! var with
       | None => true
       | Some v => PyStr.is_empty v
       end then
      ValidationResult.add_error result var
        ("Required environment variable '" +:+ var +:+ "' is not set")
        (Some ("Set " +:+ var +:+ " in your .env file or environment")) None
    else result) result.

Section Yaml.

(** [yaml.safe_load] on the text of a file: [None] stands for a raised
    [yaml.YAMLError]. *)
Variable yaml_safe_load : string -> option document.

(** [yaml.dump(config, default_flow_style=False, sort_keys=False)]. *)
Variable yaml_dump : pydict -> string.

Definition load_config (self : t) (config_path : option string) (fs : filesystem)
    : outcome pydict :=
  let config_file := target_path self config_path in
  match fs !! config_file with
  | None => Raise FileNotFoundError
  | Some text =>
      match yaml_safe_load text with
      | None => Raise YAMLError
      | Some (DDict (item :: items)) => Return (strip_identifiers (item :: items))
      | Some (DDict []) => Return []
      | Some DNone => Return []
      end
  end.

Definition save_config (self : t) (config : pydict) (config_path : option string)
    (fs : filesystem) : filesystem :=
  let config_file := target_path self config_path in
  <[config_file := yaml_dump config]> fs.

(** The [try] block of [update_config_parameter]: the loaded configuration,
    or an empty one when the file is not there. *)
Definition load_or_empty (self : t) (fs : filesystem) : outcome pydict :=
  match load_config self None fs with
  | Raise FileNotFoundError => Return []
  | r => r
  end.

Definition update_config_parameter (self : t) (key value : string) (fs : filesystem)
    : outcome filesystem :=
  config ← load_or_empty self fs;
  let config := dict_set key (PStr value) config in
  Return (save_config self config None fs).

Definition create_template_files (self : t) (fs : filesystem) : filesystem :=
  let config_file := joinpath (config_dir self) "config.yaml" in
  let fs :=
    match fs !! config_file with
    | None =>
        <[config_file :=
            "# AgentCore Gateway Configuration" +:+ PyStr.newline
            +:+ ("# Replace placeholder values with your actual configuration"
                 +:+ PyStr.newline +:+ PyStr.newline)
            +:+ yaml_dump config_template]> fs
    | Some _ => fs
    end in
  let env_file := joinpath (config_dir self) ".env.example" in
  match fs !! env_file with
  | None => <[env_file := env_template]> fs
  | Some _ => fs
  end.

End Yaml.

End ConfigurationManager.

(** ** Predicates used to state the properties *)

(** The two step lists of a setup state share no step. *)
Definition steps_disjoint (st : SetupState.t) : Prop :=
  forall s, In s (SetupState.completed_steps st) -> ~ In s (SetupState.failed_steps st).

(** A result as the validators create it before any check has run. *)
Definition fresh_result : ValidationResult.t := ValidationResult.mk true VALID [] [].

(** A setup result that reports success and carries no error yet. *)
Definition successful_setup : SetupResult.t := SetupResult.mk true SUCCESS None None [] [].

(** The status a setup result takes from the first error it receives. *)
Definition status_of_first_error (e : SetupError.t) : SetupStatus :=
  if SetupError.recoverable e then PARTIAL else FAILED.

(** Exactly twelve ASCII decimal digits. *)
Definition twelve_decimal_digits (s : string) : bool :=
  (String.length s =? 12)%nat && PyStr.all PyStr.isdecimal_char s.

(** The error [check_account_id] records for a rejected account id. *)
Definition account_id_format_error (account_id : string) : ValidationError.t :=
  ValidationError.mk "account_id"
    ("Invalid AWS account ID format: " +:+ account_id)
    (Some "AWS account ID must be a 12-digit number") None.

(** The error [check_required_aws] records for a missing or empty key. *)
Definition required_aws_error (param : string) : ValidationError.t :=
  ValidationError.mk param
    ("Required AWS parameter '" +:+ param +:+ "' is missing or empty")
    (Some ("Add '" +:+ param +:+ "' to your config.yaml file")) None.

(** [add_error] called with the fields of an error record. *)
Definition record_error (r : ValidationResult.t) (e : ValidationError.t)
    : ValidationResult.t :=
  ValidationResult.add_error r (ValidationError.field e) (ValidationError.message e)
    (ValidationError.suggestion e) (ValidationError.error_code e).

(** The result after the errors [es] have been added in order. *)
Definition record_all (r : ValidationResult.t) (es : list ValidationError.t)
    : ValidationResult.t :=
  fold_left record_error es r.

(** The errors a check has recorded, none if it raised. *)
Definition outcome_errors (o : outcome ValidationResult.t) : list ValidationError.t :=
  match o with
  | Return r => ValidationResult.errors r
  | Raise _ => []
  end.

(** The value under [key], when the checks look at it, is a [str]. *)
Definition strippable (config : pydict) (key : string) : bool :=
  match ConfigurationManager.present config key with
  | Some v => is_str v
  | None => true
  end.

(** The values the format checks call [strip] on are strings. *)
Definition strip_safe (config : pydict) : bool :=
  forallb (strippable config)
    ["region"; "endpoint_url"; "credential_provider_endpoint_url"; "user_pool_id"].

(** The value under [key] is a string that satisfies [p]. *)
Definition has_str (p : string -> bool) (config : pydict) (key : string) : bool :=
  match dict_get key config with
  | Some (PStr s) => p s
  | _ => false
  end.

(** A region name: alphanumerics, hyphens and underscores, not separators
    alone. *)
Definition well_formed_region (r : string) : bool :=
  PyStr.all (fun c => PyStr.isalnum_char c || Ascii.eqb c "-" || Ascii.eqb c "_") r
  && PyStr.any PyStr.isalnum_char r.

(** An endpoint on the secure scheme. *)
Definition https_url (u : string) : bool := PyStr.startswith "https://" u.

(** A user-pool id: a separator, and before it a segment of alphanumerics
    and hyphens, not hyphens alone. *)
Definition well_formed_pool_id (p : string) : bool :=
  PyStr.contains_char "_" p
  && PyStr.all (fun c => PyStr.isalnum_char c || Ascii.eqb c "-") (PyStr.split_head "_" p)
  && PyStr.any PyStr.isalnum_char (PyStr.split_head "_" p).

(** No string value of the mapping is one of the placeholder sentinels. *)
Definition placeholder_free (config : pydict) : bool :=
  forallb (fun item =>
    match item with
    | (_, PStr value) => negb (PyStr.list_in value ConfigurationManager.placeholder_values)
    | _ => true
    end) config.

(** Every required key is there with a non-empty, well-formed value, and no
    value is a placeholder. *)
Definition well_formed_config (config : pydict) : bool :=
  has_str twelve_decimal_digits config "account_id"
  && has_str well_formed_region config "region"
  && has_str https_url config "endpoint_url"
  && has_str https_url config "credential_provider_endpoint_url"
  && has_str well_formed_pool_id config "user_pool_id"
  && forallb (fun key => negb (ConfigurationManager.missing_or_empty config key))
       ["role_name"; "client_id"; "gateway_name"; "credential_provider_name"]
  && placeholder_free config.

(** The configuration of the test fixture [sample_config_dict]. *)
Definition sample_config_dict : pydict :=
  [("account_id", PStr "123456789012");
   ("region", PStr "us-east-1");
   ("role_name", PStr "test-role");
   ("endpoint_url", PStr "https://bedrock-agentcore-control.us-east-1.amazonaws.com");
   ("credential_provider_endpoint_url",
    PStr "https://us-east-1.prod.agent-credential-provider.cognito.aws.dev");
   ("user_pool_id", PStr "us-east-1_ABCDEFGHI");
   ("client_id", PStr "test-client-id");
   ("s3_bucket", PStr "test-bucket");
   ("s3_path_prefix", PStr "test-prefix");
   ("credential_provider_name", PStr "test-provider");
   ("gateway_name", PStr "test-gateway");
   ("gateway_description", PStr "Test gateway")].

(** The error, if any, each loop of [validate_config] records for one
    element. *)
Definition required_aws_choice (config : pydict) (param : string)
    : option ValidationError.t :=
  if ConfigurationManager.missing_or_empty config param
  then Some (required_aws_error param) else None.

Definition required_cognito_choice (config : pydict) (param : string)
    : option ValidationError.t :=
  if ConfigurationManager.missing_or_empty config param then
    Some (ValidationError.mk param
            ("Required Cognito parameter '" +:+ param +:+ "' is missing or empty")
            (Some "Run deployment/setup_cognito.sh to generate Cognito configuration")
            None)
  else None.

Definition required_gateway_choice (config : pydict) (param : string)
    : option ValidationError.t :=
  if ConfigurationManager.missing_or_empty config param then
    Some (ValidationError.mk param
            ("Required gateway parameter '" +:+ param +:+ "' is missing or empty")
            (Some ("Add '" +:+ param +:+ "' to your config.yaml file")) None)
  else None.

Definition placeholder_choice (item : string * pyval) : option ValidationError.t :=
  match item with
  | (key, PStr value) =>
      if PyStr.list_in value ConfigurationManager.placeholder_values then
        Some (ValidationError.mk key
                ("Configuration parameter '" +:+ key
                   +:+ "' contains placeholder value: " +:+ value)
                (Some ("Replace '" +:+ value +:+ "' with your actual " +:+ key)) None)
      else None
  | _ => None
  end.

(** Everything the eight checks of [validate_config] report, each taken on
    its own from a fresh result, in the order the checks run. *)
Definition reported_errors (config : pydict) : list ValidationError.t :=
  ValidationResult.errors (ConfigurationManager.check_required_aws config fresh_result)
  ++ ValidationResult.errors (ConfigurationManager.check_required_cognito config fresh_result)
  ++ ValidationResult.errors (ConfigurationManager.check_required_gateway config fresh_result)
  ++ ValidationResult.errors (ConfigurationManager.check_account_id config fresh_result)
  ++ outcome_errors (ConfigurationManager.check_region config fresh_result)
  ++ outcome_errors (ConfigurationManager.check_endpoint_urls config fresh_result)
  ++ outcome_errors (ConfigurationManager.check_user_pool_id config fresh_result)
  ++ ValidationResult.errors (ConfigurationManager.check_placeholders config fresh_result).

(** What the clean-up loop of [load_config] makes of the value stored
    under [key]: a string under an identifier key is stripped, anything else
    is kept. *)
Definition cleaned (key : string) (v : pyval) : pyval :=
  if PyStr.list_in key ConfigurationManager.identifier_keys then
    match v with
    | PStr s => PStr (PyStr.strip s)
    | _ => v
    end
  else v.

(** A loader that reads [text] as the mapping [d] and rejects any other
    text, and a writer that puts one [key: 'value'] line per entry: enough
    of YAML to run the manager on a concrete file. *)
Definition reads_as (text : string) (d : pydict) : string -> option document :=
  fun t => if String.eqb t text then Some (DDict d) else None.

Definition render_lines (d : pydict) : string :=
  fold_right (fun item acc =>
    fst item +:+ ": '" +:+ py_str (snd item) +:+ "'" +:+ PyStr.newline +:+ acc) "" d.

(** Some error of the list names [field]. *)
Definition reports (es : list ValidationError.t) (field : string) : Prop :=
  exists e, In e es /\ ValidationError.field e = field.

(** The error, if any, [validate_environment_variables] records for one
    required variable, given the merged environment. *)
Definition env_choice (env_vars : gmap string string) (var : string)
    : option ValidationError.t :=
  if match env_vars !! var with
     | None => true
     | Some v => PyStr.is_empty v
     end then
    Some (ValidationError.mk var
            ("Required environment variable '" +:+ var +:+ "' is not set")
            (Some ("Set " +:+ var +:+ " in your .env file or environment")) None)
  else None.

(** ** models.py: the configuration records

    Each record is built by its constructor followed by [__post_init__];
    a field holds whatever value the caller passed, and [strip] raises on a
    value that is not a string. *)

Module AWSConfig.

Record t := mk {
  account_id : pyval;
  region : pyval;
  role_name : pyval;
  endpoint_url : pyval;
  credential_provider_endpoint_url : pyval
}.

Definition init (account_id region role_name endpoint_url
    credential_provider_endpoint_url : pyval) : outcome t :=
  account_id ← py_strip account_id;
  role_name ← py_strip role_name;
  Return (mk (PStr account_id) region (PStr role_name) endpoint_url
            credential_provider_endpoint_url).

End AWSConfig.

Module CognitoConfig.

Record t := mk {
  user_pool_id : pyval;
  client_id : pyval;
  domain : pyval;
  client_secret : pyval
}.

Definition init (user_pool_id client_id domain client_secret : pyval) : outcome t :=
  user_pool_id ← py_strip user_pool_id;
  client_id ← py_strip client_id;
  Return (mk (PStr user_pool_id) (PStr client_id) domain client_secret).

End CognitoConfig.

Module S3Config.

Record t := mk {
  bucket : pyval;
  path_prefix : pyval;
  auto_create : pyval
}.

Definition init (bucket path_prefix auto_create : pyval) : outcome t :=
  if truthy bucket then
    bucket ← py_strip bucket;
    Return (mk (PStr bucket) path_prefix auto_create)
  else Return (mk bucket path_prefix auto_create).

End S3Config.

Module CredentialConfig.

Record t := mk {
  provider_name : pyval;
  api_key : pyval;
  region : pyval;
  endpoint_url : pyval
}.

Definition init (provider_name api_key region endpoint_url : pyval) : outcome t :=
  provider_name ← py_strip provider_name;
  region ← py_strip region;
  Return (mk (PStr provider_name) api_key (PStr region) endpoint_url).

End CredentialConfig.

Module GatewayConfig.

Record t := mk {
  name : pyval;
  description : pyval;
  provider_arn : pyval
}.

Definition init (name description provider_arn : pyval) : outcome t :=
  name ← py_strip name;
  Return (mk (PStr name) description provider_arn).

End GatewayConfig.

(** ** Sequences of calls on a validation result *)

Inductive validation_call :=
| AddError (e : ValidationError.t)
| AddWarning (message : string).

Definition validation_perform (r : ValidationResult.t) (c : validation_call)
    : ValidationResult.t :=
  match c with
  | AddError e => record_error r e
  | AddWarning message => ValidationResult.add_warning r message
  end.

Definition validation_run (calls : list validation_call) (r : ValidationResult.t)
    : ValidationResult.t :=
  fold_left validation_perform calls r.

(** The errors and the warnings a sequence of calls carries. *)
Definition errors_of_calls (calls : list validation_call) : list ValidationError.t :=
  omap (fun c => match c with AddError e => Some e | AddWarning _ => None end) calls.

Definition warnings_of_calls (calls : list validation_call) : list string :=
  omap (fun c => match c with AddWarning w => Some w | AddError _ => None end) calls.

(** A string that [strip] leaves as it is. *)
Definition stripped (s : string) : Prop := PyStr.strip s = s.

(** ** config_manager.py: the typed accessors *)


(** [sep.join(parts)]. *)
Fixpoint str_join (sep : string) (parts : list string) : string :=
  match parts with
  | [] => ""
  | [p] => p
  | p :: (_ :: _) as rest => p +:+ sep +:+ str_join sep rest
  end.

(** What [get_aws_config] can raise: an exception that escapes from the
    loader, the validator or the record constructor, a [KeyError] of
    [config[key]], or its own [ValueError]. *)
Inductive accessor_error :=
| Escaped (e : exn)
| KeyError (key : string)
| ValueError (message : string).

Inductive answer (A : Type) :=
| Answer (a : A)
| Failure (e : accessor_error).

Arguments Answer {A} a.
Arguments Failure {A} e.

#[global] Instance answer_ret : MRet answer := fun A a => Answer a.

#[global] Instance answer_bind : MBind answer := fun A B f c =>
  match c with
  | Answer a => f a
  | Failure e => Failure e
  end.

Definition escaping {A : Type} (o : outcome A) : answer A :=
  match o with
  | Return a => Answer a
  | Raise e => Failure (Escaped e)
  end.

(** [d[key]]. *)
Definition dict_item (key : string) (d : pydict) : answer pyval :=
  match dict_get key d with
  | Some v => Answer v
  | None => Failure (KeyError key)
  end.

(** The message of the [ValueError] of [get_aws_config]. *)
Definition invalid_configuration_message (es : list ValidationError.t) : string :=
  "Invalid AWS configuration: "
  +:+ str_join "; "
        (map (fun err => ValidationError.field err +:+ ": " +:+ ValidationError.message err)
           es).

Section Accessors.

Variable yaml_safe_load : string -> option document.

Definition get_aws_config (self : ConfigurationManager.t) (fs : filesystem)
    : answer AWSConfig.t :=
  config ← escaping (ConfigurationManager.load_config yaml_safe_load self None fs);
  validation ← escaping (ConfigurationManager.validate_config config);
  if negb (ValidationResult.is_valid validation) then
    Failure (ValueError (invalid_configuration_message (ValidationResult.errors validation)))
  else
    account_id ← dict_item "account_id" config;
    region ← dict_item "region" config;
    role_name ← dict_item "role_name" config;
    endpoint_url ← dict_item "endpoint_url" config;
    credential_provider_endpoint_url ← dict_item "credential_provider_endpoint_url" config;
    escaping (AWSConfig.init account_id region role_name endpoint_url
                credential_provider_endpoint_url).



End Accessors.

(** The configuration of the test fixture with the account id written as a
    YAML integer. *)
Definition sample_config_integer_account : pydict :=
  dict_set "account_id" (PInt 123456789012) sample_config_dict.

(** The test [var not in env_vars or not env_vars[var]]. *)
Definition env_missing (env_vars : gmap string string) (var : string) : bool :=
  match env_vars !! var with
  | None => true
  | Some v => PyStr.is_empty v
  end.

(** ** validate_setup.py

    [print] and [print_status] only write to the terminal and are left out;
    so is [os.chmod], file modes not being part of the file system here.
    An exception that [subprocess.run] raises and [run_command] does not
    catch escapes from the check that ran the command.
    The interpreter's version, what [subprocess.run] does with each command,
    [json.loads], [yaml.safe_load] and the text of the generated script
    (which holds characters outside the modelled range) are inputs. *)

Module PyText.

(** [pattern in s]. *)
Fixpoint contains (pattern s : string) : bool :=
  PyStr.startswith pattern s
  || match s with
     | EmptyString => false
     | String _ s' => contains pattern s'
     end.

(** [s.split(x)] for a one-character [x]: the pieces between occurrences of
    [x], empty ones included. *)
Fixpoint split_char (x : ascii) (s : string) : list string :=
  match s with
  | EmptyString => [EmptyString]
  | String c s' =>
      if Ascii.eqb c x then EmptyString :: split_char x s'
      else match split_char x s' with
           | piece :: pieces => String c piece :: pieces
           | [] => [String c EmptyString]
           end
  end.

(** [s.split()]: the maximal runs of characters that are not blank. *)
Fixpoint split_from (cur : string) (s : string) : list string :=
  match s with
  | EmptyString => if PyStr.is_empty cur then [] else [cur]
  | String c s' =>
      if PyStr.isspace_char c then
        if PyStr.is_empty cur then split_from EmptyString s'
        else cur :: split_from EmptyString s'
      else split_from (cur +:+ String c EmptyString) s'
  end.

Definition split (s : string) : list string := split_from EmptyString s.

End PyText.

Module ValidateSetup.

(** What [subprocess.run] does with a command: the process exits, or the
    call raises: one of the two exceptions [run_command] catches
    ([TimeoutExpired], [FileNotFoundError]), or an exception of another
    class, such as [PermissionError], named by its class.  The classes meant
    are those under [Exception], which [main] catches; [KeyboardInterrupt]
    and [SystemExit] are left out. *)
Inductive process :=
| Exited (returncode : Z) (stdout : string)
| TimeoutExpired (message : string)
| CommandNotFound (message : string)
| OtherException (class : string).

(** What [json.loads] returns: an object, or a value of another kind. *)
Inductive json :=
| JObject (d : pydict)
| JOther.

(** What [yaml.safe_load] returns to the script: [None] for an empty
    document, a mapping, or a value of another kind (a list, a scalar). *)
Inductive yaml_value :=
| YNull
| YMapping (d : pydict)
| YOther.

(** The exceptions that escape from a check: the two the script's own code
    raises, and one that [subprocess.run] raised and nothing caught. *)
Inductive error :=
| IndexError
| AttributeError
| Uncaught (class : string).

Inductive result (A : Type) :=
| Returns (a : A)
| Raises (e : error).

Arguments Returns {A} a.
Arguments Raises {A} e.

Definition placeholders : list string :=
  ["YOUR_ACCOUNT_ID"; "REGION"; "YOUR_ROLE_NAME"; "YOUR_USER_POOL_ID"; "YOUR_CLIENT_ID"].

Definition required_ports : list Z := [8011; 8012; 8013; 8014]%Z.

Definition cert_paths : list string := ["/opt/ssl/privkey.pem"; "/opt/ssl/fullchain.pem"].

(** [path.exists()]. *)
Definition exists_file (fs : filesystem) (path : string) : bool :=
  match fs !! path with
  | Some _ => true
  | None => false
  end.

(** The placeholder scan of [check_configuration]: the [key: value] lines
    it collects. *)
Definition found_placeholders (config : pydict) : list string :=
  for_each config (fun found item =>
    match item with
    | (key, PStr value) =>
        if PyStr.list_in value placeholders then found ++ [key +:+ ": " +:+ value]
        else found
    | _ => found
    end) [].

(** The environment-file loop of [check_configuration]. *)
Definition parse_env_file (text : string) : gmap string string :=
  for_each (PyStr.file_lines text) (fun (env_vars : gmap string string) line =>
    let line := PyStr.strip line in
    if negb (PyStr.is_empty line) && negb (PyStr.startswith "#" line)
       && PyStr.contains_char "=" line then
      match PyStr.split_once "=" line with
      | Some (key, value) => <[PyStr.strip key := PyStr.strip value]> env_vars
      | None => env_vars
      end
    else env_vars) ∅.

(** [[var for var in required_vars if var not in env_vars or not env_vars[var]]]. *)
Definition missing_vars (env_vars : gmap string string) (required_vars : list string)
    : list string :=
  List.filter (fun var =>
    match env_vars !! var with
    | None => true
    | Some v => PyStr.is_empty v
    end) required_vars.

(** The second half of [check_configuration]: what the environment file
    makes of [all_good]. *)
Definition check_env_file (fs : filesystem) (all_good : bool) : bool :=
  match fs !! "gateway/.env" with
  | None => all_good
  | Some text =>
      match missing_vars (parse_env_file text) ["BACKEND_API_KEY"] with
      | [] => all_good
      | _ :: _ => false
      end
  end.

(** The port scan of [check_ports]. *)
Definition used_ports (output : string) : list Z :=
  for_each (PyText.split_char PyStr.LF output) (fun used line =>
    for_each required_ports (fun used port =>
      if PyText.contains (":" +:+ py_str (PInt port) +:+ " ") line then used ++ [port]
      else used) used) [].

Section Script.

Variable version_info : Z * Z * Z.
Variable subprocess_run : list string -> process.
Variable json_loads : string -> option json.
Variable yaml_safe_load : string -> option yaml_value.
Variable fix_script : string.

Definition run_command (cmd : list string) : result (bool * string) :=
  match subprocess_run cmd with
  | Exited returncode stdout => Returns ((returncode =? 0)%Z, PyStr.strip stdout)
  | TimeoutExpired message => Returns (false, message)
  | CommandNotFound message => Returns (false, message)
  | OtherException class => Raises (Uncaught class)
  end.

Definition check_prerequisites : result bool :=
  let all_good := true in
  let '(major, minor, _) := version_info in
  let all_good := if (3 <=? major)%Z && (12 <=? minor)%Z then all_good else false in
  match run_command ["aws"; "--version"] with
  | Raises e => Raises e
  | Returns (success, output) =>
      match
        (if success then
           match PyText.split output with
           | [] => Raises IndexError
           | _ :: _ => Returns all_good
           end
         else Returns false)
      with
      | Raises e => Raises e
      | Returns all_good =>
          match run_command ["uv"; "--version"] with
          | Raises e => Raises e
          | Returns (success, output) =>
              let all_good := if success then all_good else false in
              Returns all_good
          end
      end
  end.

Definition check_aws_credentials : result bool :=
  match run_command ["aws"; "sts"; "get-caller-identity"] with
  | Raises e => Raises e
  | Returns (success, output) =>
      if negb success then Returns false
      else
        match json_loads output with
        | None => Returns false
        | Some JOther => Raises AttributeError
        | Some (JObject _) =>
            match run_command ["aws"; "s3"; "ls"] with
            | Raises e => Raises e
            | Returns (success, _) => Returns true
            end
        end
  end.

Definition check_configuration (fs : filesystem) : result bool :=
  let all_good := true in
  match
    (match fs !! "gateway/config.yaml" with
     | None => Returns false
     | Some text =>
         match yaml_safe_load text with
         | None => Returns false
         | Some YNull => Raises AttributeError
         | Some YOther => Raises AttributeError
         | Some (YMapping config) =>
             match found_placeholders config with
             | [] => Returns all_good
             | _ :: _ => Returns false
             end
         end
     end)
  with
  | Raises e => Raises e
  | Returns all_good => Returns (check_env_file fs all_good)
  end.

Definition check_ssl_certificates (fs : filesystem) : bool :=
  forallb (exists_file fs) cert_paths.

Definition check_ports : result bool :=
  match run_command ["netstat"; "-tlnp"] with
  | Raises e => Raises e
  | Returns (success, output) =>
      if negb success then Returns true
      else
        match used_ports output with
        | [] => Returns true
        | _ :: _ => Returns false
        end
  end.

Definition generate_fix_script (fs : filesystem) : filesystem :=
  <["fix_setup.sh" := fix_script]> fs.

(** [main]: the file system it leaves and the value it returns.  A check
    that raises is recorded as failed. *)
Definition main (fs : filesystem) : filesystem * bool :=
  let checks :=
    [("Prerequisites", check_prerequisites);
     ("AWS Credentials", check_aws_credentials);
     ("Configuration", check_configuration fs);
     ("SSL Certificates", Returns (check_ssl_certificates fs));
     ("Port Availability", check_ports)] in
  let results :=
    for_each checks (fun results check =>
      match snd check with
      | Returns result => results ++ [(fst check, result)]
      | Raises _ => results ++ [(fst check, false)]
      end) [] in
  let passed := length (List.filter (fun r : string * bool => snd r) results) in
  let total := length results in
  if (passed =? total)%nat then (fs, true)
  else (generate_fix_script fs, false).

End Script.

End ValidateSetup.

(** The version test of [check_prerequisites] and the comparison of the
    version with 3.12 as a pair. *)
Definition version_accepted (major minor : Z) : bool :=
  ((3 <=? major) && (12 <=? minor))%Z.

Definition at_least_3_12 (major minor : Z) : bool :=
  ((3 <? major) || ((major =? 3) && (12 <=? minor)))%Z.

(** The four patterns [check_ports] looks for. *)
Definition port_patterns : list string :=
  map (fun port => ":" +:+ py_str (PInt port) +:+ " ") ValidateSetup.required_ports.



(** * Properties of the data models *)

Section ValidationResultFacts.

Import ValidationResult.

Lemma add_warning_is_valid r w : is_valid (add_warning r w) = is_valid r.
Proof. reflexivity. Qed.

Lemma add_warning_errors r w : errors (add_warning r w) = errors r.
Proof. reflexivity. Qed.

Lemma add_error_errors r f m s c :
  errors (add_error r f m s c) = errors r ++ [ValidationError.mk f m s c].
Proof. reflexivity. Qed.

(** C10: [add_warning] leaves the [is_valid] flag and the error list as they
    were, however many warnings are appended; in particular a valid result
    without errors stays valid and without errors. *)
Theorem add_warning_keeps_validity_and_errors (r : ValidationResult.t) (ws : list string) :
  is_valid (for_each ws add_warning r) = is_valid r
  /\ errors (for_each ws add_warning r) = errors r.
Proof.
  unfold for_each. revert r.
  induction ws as [|w ws IH]; intros r; simpl; [easy|].
  destruct (IH (add_warning r w)) as [Hv He].
  now rewrite Hv, He.
Qed.

End ValidationResultFacts.

Section SetupResultFacts.

Import SetupResult.

Lemma add_success r e : success (add r e) = false.
Proof. reflexivity. Qed.

Lemma add_status_sticky r e : status r <> SUCCESS -> status (add r e) = status r.
Proof. unfold add, add_error; simpl. destruct (status r); congruence. Qed.

Lemma add_status_first r e :
  status r = SUCCESS -> status (add r e) = status_of_first_error e.
Proof.
  intros H. unfold add, add_error, status_of_first_error; simpl. rewrite H.
  now destruct (SetupError.recoverable e).
Qed.

Lemma status_of_first_error_not_success e : status_of_first_error e <> SUCCESS.
Proof. unfold status_of_first_error. now destruct (SetupError.recoverable e). Qed.

Lemma adds_status_sticky es : forall r,
  status r <> SUCCESS -> status (for_each es add r) = status r.
Proof.
  unfold for_each.
  induction es as [|e es IH]; intros r Hr; simpl; [easy|].
  rewrite IH; rewrite add_status_sticky; auto.
Qed.

Lemma adds_success es : forall r e, success (for_each (e :: es) add r) = false.
Proof.
  unfold for_each.
  induction es as [|e' es IH]; intros r e; simpl; [easy|].
  apply (IH (add r e) e').
Qed.

(** C1 (as stated, refuted): a non-recoverable error that arrives after a
    recoverable one is the first non-recoverable error of the sequence, yet
    the status stays [PARTIAL]. *)
Lemma nonrecoverable_after_recoverable_stays_partial :
  let r1 := add_error successful_setup "s3" "AccessDenied" "bucket not created" None true in
  let r2 := add_error r1 "gateway" "Fatal" "gateway not created" None false in
  status r1 = PARTIAL /\ status r2 = PARTIAL /\ status r2 <> FAILED /\ success r2 = false.
Proof. simpl. repeat split; discriminate. Qed.

(** C1 (amended): every [add_error] call clears [success]; the status changes
    only on a call made while it is still [SUCCESS], to [FAILED] for a
    non-recoverable error and to [PARTIAL] for a recoverable one, and is kept
    otherwise.  So on a result whose status is [SUCCESS] the first error of a
    sequence alone decides the final status. *)
Theorem add_error_first_error_decides (r : SetupResult.t) (e : SetupError.t)
    (es : list SetupError.t) :
  success (add r e) = false
  /\ (status r = SUCCESS -> status (add r e) = status_of_first_error e)
  /\ (status r <> SUCCESS -> status (add r e) = status r)
  /\ (status r = SUCCESS ->
      status (for_each (e :: es) add r) = status_of_first_error e
      /\ success (for_each (e :: es) add r) = false).
Proof.
  split; [apply add_success|].
  split; [apply add_status_first|].
  split; [apply add_status_sticky|].
  intros Hr. split; [|apply adds_success].
  change (for_each (e :: es) add r) with (for_each es add (add r e)).
  rewrite adds_status_sticky; rewrite add_status_first; auto.
  apply status_of_first_error_not_success.
Qed.

Lemma add_error_first_error_decides_witness :
  let e1 := SetupError.mk "s3" "AccessDenied" "bucket not created" None true in
  let e2 := SetupError.mk "gateway" "Fatal" "gateway not created" None false in
  status successful_setup = SUCCESS
  /\ status (for_each [e1; e2] add successful_setup) = PARTIAL
  /\ status (for_each [e2; e1] add successful_setup) = FAILED.
Proof.
  intros e1 e2. split; [reflexivity|]. split.
  - apply (proj1 (proj2 (proj2 (proj2
      (add_error_first_error_decides successful_setup e1 [e2]))) eq_refl)).
  - apply (proj1 (proj2 (proj2 (proj2
      (add_error_first_error_decides successful_setup e2 [e1]))) eq_refl)).
Defined.

End SetupResultFacts.

Section SetupStateFacts.

Import SetupState.

Lemma list_in_In x xs : PyStr.list_in x xs = true <-> In x xs.
Proof.
  unfold PyStr.list_in. rewrite existsb_exists. split.
  - intros (y & Hy & E). apply String.eqb_eq in E. now subst.
  - intros H. exists x. split; [assumption|apply String.eqb_refl].
Qed.

Lemma list_in_false x xs : PyStr.list_in x xs = false <-> ~ In x xs.
Proof.
  rewrite <- list_in_In. destruct (PyStr.list_in x xs); split; congruence.
Qed.

Lemma In_list_remove x y xs : In y (PyStr.list_remove x xs) -> In y xs.
Proof.
  induction xs as [|z xs IH]; simpl; [easy|].
  destruct (String.eqb_spec x z); simpl; intuition.
Qed.

Lemma In_list_remove_other x y xs : y <> x -> In y xs -> In y (PyStr.list_remove x xs).
Proof.
  intros Hne. induction xs as [|z xs IH]; simpl; [easy|].
  destruct (String.eqb_spec x z); simpl; intros [E|H]; subst; intuition.
Qed.

Lemma NoDup_list_remove x xs : List.NoDup xs -> List.NoDup (PyStr.list_remove x xs).
Proof.
  induction 1 as [|z xs Hz Hnd IH]; simpl; [constructor|].
  destruct (String.eqb_spec x z); [assumption|].
  constructor; [|assumption]. intros H. apply Hz. eapply In_list_remove; eassumption.
Qed.

Lemma list_remove_gone x xs : List.NoDup xs -> ~ In x (PyStr.list_remove x xs).
Proof.
  induction 1 as [|z xs Hz Hnd IH]; simpl; [easy|].
  destruct (String.eqb_spec x z) as [->|Hne]; [assumption|].
  simpl. intros [E|H]; [congruence|auto].
Qed.

Lemma NoDup_snoc (x : string) xs : List.NoDup xs -> ~ In x xs -> List.NoDup (xs ++ [x]).
Proof.
  intros Hnd Hx. induction Hnd as [|z xs Hz Hnd IH]; simpl.
  - constructor; [easy|constructor].
  - constructor.
    + rewrite in_app_iff. simpl. intros [H|[E|[]]]; [auto|].
      subst. apply Hx. now left.
    + apply IH. intros H. apply Hx. now right.
Qed.

Lemma failed_after_completed st s :
  failed_steps (mark_step_completed st s)
  = if PyStr.list_in s (failed_steps st)
    then PyStr.list_remove s (failed_steps st) else failed_steps st.
Proof. reflexivity. Qed.

Lemma completed_after_completed st s x :
  In x (completed_steps (mark_step_completed st s)) <-> In x (completed_steps st) \/ x = s.
Proof.
  unfold mark_step_completed; simpl.
  destruct (PyStr.list_in s (completed_steps st)) eqn:E; simpl.
  - apply list_in_In in E. split; [auto|]. intros [H| ->]; assumption.
  - rewrite in_app_iff. simpl. intuition.
Qed.

Lemma failed_after_failed st s x :
  In x (failed_steps (mark_step_failed st s)) <-> In x (failed_steps st) \/ x = s.
Proof.
  unfold mark_step_failed; simpl.
  destruct (PyStr.list_in s (failed_steps st)) eqn:E; simpl.
  - apply list_in_In in E. split; [auto|]. intros [H| ->]; assumption.
  - rewrite in_app_iff. simpl. intuition.
Qed.

Lemma completed_not_failed st s :
  List.NoDup (failed_steps st) -> ~ In s (failed_steps (mark_step_completed st s)).
Proof.
  intros Hnd. rewrite failed_after_completed.
  destruct (PyStr.list_in s (failed_steps st)) eqn:E.
  - now apply list_remove_gone.
  - now apply list_in_false.
Qed.

Lemma failed_shrinks st s x :
  In x (failed_steps (mark_step_completed st s)) -> In x (failed_steps st).
Proof.
  rewrite failed_after_completed.
  destruct (PyStr.list_in s (failed_steps st)); [apply In_list_remove|easy].
Qed.

Lemma NoDup_failed_completed st s :
  List.NoDup (failed_steps st) -> List.NoDup (failed_steps (mark_step_completed st s)).
Proof.
  intros Hnd. rewrite failed_after_completed.
  destruct (PyStr.list_in s (failed_steps st)); [now apply NoDup_list_remove|easy].
Qed.

Lemma NoDup_failed_failed st s :
  List.NoDup (failed_steps st) -> List.NoDup (failed_steps (mark_step_failed st s)).
Proof.
  intros Hnd. unfold mark_step_failed; simpl.
  destruct (PyStr.list_in s (failed_steps st)) eqn:E; simpl; [easy|].
  apply NoDup_snoc; [assumption|now apply list_in_false].
Qed.

(** Every state reached from a freshly built one has a duplicate-free list
    of failed steps. *)
Lemma NoDup_failed_reachable calls : forall st,
  List.NoDup (failed_steps st) -> List.NoDup (failed_steps (run calls st)).
Proof.
  unfold run.
  induction calls as [|c calls IH]; intros st Hnd; simpl; [easy|].
  apply IH. destruct c; [now apply NoDup_failed_completed|now apply NoDup_failed_failed].
Qed.

(** C2 (as stated, refuted): a step marked completed and then marked failed
    sits in both lists, because [mark_step_failed] never touches
    [completed_steps]. *)
Lemma completed_then_failed_in_both_lists :
  let st := run [Completed "create_bucket"; Failed "create_bucket"] (fresh "init" 0) in
  completed_steps st = ["create_bucket"]
  /\ failed_steps st = ["create_bucket"]
  /\ ~ steps_disjoint st.
Proof.
  simpl. split; [reflexivity|]. split; [reflexivity|].
  intros H. apply (H "create_bucket"); simpl; auto.
Qed.

(** C2 (amended): on a state whose [failed_steps] holds no step twice, as in
    every state reached from a fresh one, both methods keep that list
    duplicate-free; [mark_step_completed] puts the step in [completed_steps],
    removes it from [failed_steps] and keeps the two lists disjoint;
    [mark_step_failed] leaves [completed_steps] alone, so afterwards the
    lists are disjoint exactly when they were before and the step had not
    been completed. *)
Theorem mark_step_disjointness (st : SetupState.t) (s : string)
    (Hnd : List.NoDup (failed_steps st)) :
  (forall calls step now, List.NoDup (failed_steps (run calls (fresh step now))))
  /\ List.NoDup (failed_steps (mark_step_completed st s))
  /\ List.NoDup (failed_steps (mark_step_failed st s))
  /\ In s (completed_steps (mark_step_completed st s))
  /\ ~ In s (failed_steps (mark_step_completed st s))
  /\ (steps_disjoint st -> steps_disjoint (mark_step_completed st s))
  /\ completed_steps (mark_step_failed st s) = completed_steps st
  /\ (steps_disjoint (mark_step_failed st s)
      <-> steps_disjoint st /\ ~ In s (completed_steps st)).
Proof.
  split. { intros. apply NoDup_failed_reachable. constructor. }
  split; [now apply NoDup_failed_completed|].
  split; [now apply NoDup_failed_failed|].
  split. { apply completed_after_completed. now right. }
  split; [now apply completed_not_failed|].
  split.
  { intros Hd x Hx Hf. apply completed_after_completed in Hx.
    destruct Hx as [Hx| ->].
    - apply (Hd x Hx). eapply failed_shrinks; eassumption.
    - revert Hf. now apply completed_not_failed. }
  split; [reflexivity|].
  unfold steps_disjoint. split.
  - intros Hd. split.
    + intros x Hx Hf. apply (Hd x Hx). apply failed_after_failed. now left.
    + intros Hs. apply (Hd s Hs). apply failed_after_failed. now right.
  - intros [Hd Hs] x Hx Hf. apply failed_after_failed in Hf.
    destruct Hf as [Hf| ->]; [exact (Hd x Hx Hf)|exact (Hs Hx)].
Qed.

Lemma mark_step_disjointness_witness :
  let st := run [Failed "create_bucket"] (fresh "init" 0) in
  List.NoDup (failed_steps st)
  /\ failed_steps st = ["create_bucket"]
  /\ ~ In "create_bucket" (failed_steps (mark_step_completed st "create_bucket")).
Proof.
  intros st.
  assert (Hnd : List.NoDup (failed_steps st)).
  { simpl. constructor; [easy|constructor]. }
  split; [exact Hnd|]. split; [reflexivity|].
  exact (proj1 (proj2 (proj2 (proj2 (proj2
    (mark_step_disjointness st "create_bucket" Hnd)))))).
Defined.

End SetupStateFacts.

(** * Properties of the string operations *)

Section PyStrFacts.

Import PyStr.

Ltac by_cases_on_char c :=
  destruct c as [[] [] [] [] [] [] [] []]; vm_compute; congruence.

Lemma isdecimal_isdigit c : isdecimal_char c = true -> isdigit_char c = true.
Proof. unfold isdigit_char. intros ->. reflexivity. Qed.

Lemma isdigit_isalnum c : isdigit_char c = true -> isalnum_char c = true.
Proof. unfold isalnum_char. intros ->. now rewrite orb_true_r. Qed.

Lemma isalnum_not_space c : isalnum_char c = true -> isspace_char c = false.
Proof. by_cases_on_char c. Qed.

Lemma isalnum_not_hyphen c : isalnum_char c = true -> Ascii.eqb c "-" = false.
Proof. by_cases_on_char c. Qed.

Lemma isalnum_not_underscore c : isalnum_char c = true -> Ascii.eqb c "_" = false.
Proof. by_cases_on_char c. Qed.

Lemma all_impl (p q : ascii -> bool) s :
  (forall c, p c = true -> q c = true) -> all p s = true -> all q s = true.
Proof.
  intros Hpq. induction s as [|c s IH]; simpl; [easy|].
  rewrite !andb_true_iff. intros [Hc Hs]. auto.
Qed.

Lemma any_not_empty p s : any p s = true -> is_empty s = false.
Proof. now destruct s. Qed.

Lemma length_not_empty s n : String.length s = S n -> is_empty s = false.
Proof. now destruct s. Qed.

Lemma lstrip_first c s : isspace_char c = false -> lstrip (String c s) = String c s.
Proof. simpl. now intros ->. Qed.

Lemma rstrip_no_space s :
  all (fun c => negb (isspace_char c)) s = true -> rstrip s = s.
Proof.
  induction s as [|c s IH]; simpl; [easy|].
  rewrite andb_true_iff, negb_true_iff. intros [Hc Hs].
  rewrite (IH Hs). destruct s; [now rewrite Hc|reflexivity].
Qed.

Lemma strip_no_space s :
  all (fun c => negb (isspace_char c)) s = true -> strip s = s.
Proof.
  intros H. unfold strip.
  destruct s as [|c s]; [reflexivity|].
  pose proof H as H'. simpl in H'. rewrite andb_true_iff, negb_true_iff in H'.
  rewrite lstrip_first by apply H'. now apply rstrip_no_space.
Qed.

Lemma all_remove_char (p q : ascii -> bool) x s :
  (forall c, p c = true -> Ascii.eqb c x = false -> q c = true) ->
  all p s = true -> all q (remove_char x s) = true.
Proof.
  intros Hpq. induction s as [|c s IH]; simpl; [easy|].
  rewrite andb_true_iff. intros [Hc Hs].
  destruct (Ascii.eqb c x) eqn:E; simpl; [auto|].
  rewrite (Hpq c Hc E). auto.
Qed.

Lemma any_remove_char (p : ascii -> bool) x s :
  (forall c, p c = true -> Ascii.eqb c x = false) ->
  any p s = true -> any p (remove_char x s) = true.
Proof.
  intros Hp. induction s as [|c s IH]; simpl; [easy|].
  destruct (p c) eqn:Hc; simpl.
  - intros _. rewrite (Hp c Hc). simpl. now rewrite Hc.
  - intros Hs. destruct (Ascii.eqb c x); simpl; [auto|]. rewrite Hc. auto.
Qed.

Lemma startswith_empty p : startswith p "" = true -> p = "".
Proof. now destruct p. Qed.

Lemma startswith_rstrip p : forall s,
  all (fun c => negb (isspace_char c)) p = true ->
  startswith p s = true -> startswith p (rstrip s) = true.
Proof.
  induction p as [|a p IH]; intros s Hp Hs; [reflexivity|].
  destruct s as [|b s]; [discriminate|].
  simpl in Hp, Hs. rewrite andb_true_iff in Hp, Hs.
  destruct Hp as [Ha Hp]. destruct Hs as [Hab Hs].
  apply Ascii.eqb_eq in Hab. subst b.
  specialize (IH s Hp Hs). simpl.
  destruct (rstrip s) as [|d r] eqn:E.
  - apply startswith_empty in IH. subst p.
    apply negb_true_iff in Ha. rewrite Ha. simpl. now rewrite Ascii.eqb_refl.
  - simpl. rewrite Ascii.eqb_refl. exact IH.
Qed.

Lemma rstrip_keeps_separator x : forall s,
  isspace_char x = false -> contains_char x s = true ->
  contains_char x (rstrip s) = true /\ split_head x (rstrip s) = split_head x s.
Proof.
  intros s Hx. unfold contains_char.
  induction s as [|c s IH]; simpl; [easy|].
  destruct (Ascii.eqb x c) eqn:E; simpl.
  - intros _. apply Ascii.eqb_eq in E. subst c.
    destruct (rstrip s); simpl; rewrite ?Hx; simpl; now rewrite Ascii.eqb_refl.
  - intros Hs. destruct (IH Hs) as [Hc Hh].
    assert (Ec : Ascii.eqb c x = false) by now rewrite Ascii.eqb_sym.
    destruct (rstrip s) as [|d r] eqn:Er; [discriminate|].
    simpl. rewrite E, Ec. simpl. split; [exact Hc|]. now rewrite <- Hh.
Qed.

End PyStrFacts.

(** * Properties of [validate_config] *)

Section ValidateConfigFacts.

Import ValidationResult ConfigurationManager.

Lemma errors_record_all es : forall r, errors (record_all r es) = errors r ++ es.
Proof.
  unfold record_all.
  induction es as [|[f m s c] es IH]; intros r; simpl.
  - now rewrite app_nil_r.
  - rewrite IH. simpl. now rewrite <- app_assoc.
Qed.

Lemma is_valid_record_all_false es : forall r,
  is_valid r = false -> is_valid (record_all r es) = false.
Proof.
  unfold record_all.
  induction es as [|e es IH]; intros r Hr; simpl; [exact Hr|].
  now apply IH.
Qed.

Lemma is_valid_record_all es r :
  is_valid (record_all r es) = match es with [] => is_valid r | _ :: _ => false end.
Proof.
  destruct es as [|e es]; [reflexivity|].
  now apply (is_valid_record_all_false es (record_error r e)).
Qed.

Lemma record_all_app r es1 es2 :
  record_all r (es1 ++ es2) = record_all (record_all r es1) es2.
Proof. apply fold_left_app. Qed.

(** A loop whose body records at most one error per element records, in
    order, the errors of the elements that have one. *)
Lemma for_each_record {A : Type} (g : A -> option ValidationError.t)
    (body : ValidationResult.t -> A -> ValidationResult.t) :
  (forall r x, body r x = match g x with Some e => record_error r e | None => r end) ->
  forall xs r, for_each xs body r = record_all r (omap g xs).
Proof.
  intros Hbody. unfold for_each, record_all.
  induction xs as [|x xs IH]; intros r; simpl; [reflexivity|].
  rewrite Hbody, IH. now destruct (g x).
Qed.

Lemma check_required_aws_record config r :
  check_required_aws config r
  = record_all r (omap (required_aws_choice config) required_aws_params).
Proof.
  apply for_each_record. intros r' x. unfold required_aws_choice.
  now destruct (missing_or_empty config x).
Qed.

Lemma present_str config key s :
  dict_get key config = Some (PStr s) ->
  present config key = if PyStr.is_empty s then None else Some (PStr s).
Proof. unfold present. intros ->. simpl. now destruct s. Qed.

(** C3 (as stated, refuted): an account id written with blanks around its
    twelve digits is not a string of exactly twelve digits, yet the format
    check accepts it, and so does the whole validation. *)
Lemma account_id_with_blanks_is_accepted :
  let config := dict_set "account_id" (PStr " 123456789012 ") sample_config_dict in
  twelve_decimal_digits " 123456789012 " = false
  /\ check_account_id config fresh_result = fresh_result
  /\ validate_config config = Return fresh_result.
Proof. vm_compute. repeat split. Qed.

(** C3 (amended): the format check trims the value first.  A string whose
    trimmed form is exactly twelve decimal digits is accepted; a non-empty
    string whose trimmed form has another length or holds a character that
    is not a digit for [str.isdigit] gets the account-id format error; the
    empty string is skipped by the format check and reported by the
    required-key check instead. *)
Theorem account_id_format_check (config : pydict) (result : ValidationResult.t)
    (s : string) (Hs : dict_get "account_id" config = Some (PStr s)) :
  (twelve_decimal_digits (PyStr.strip s) = true ->
   check_account_id config result = result)
  /\ (s <> "" ->
      String.length (PyStr.strip s) <> 12
      \/ PyStr.all PyStr.isdigit_char (PyStr.strip s) = false ->
      check_account_id config result
      = record_error result (account_id_format_error (PyStr.strip s)))
  /\ (s = "" ->
      check_account_id config result = result
      /\ In (required_aws_error "account_id")
           (errors (check_required_aws config result))).
Proof.
  unfold check_account_id. rewrite (present_str _ _ _ Hs).
  split; [|split].
  - unfold twelve_decimal_digits. rewrite andb_true_iff.
    intros [Hlen Hall]. destruct (PyStr.is_empty s); [reflexivity|].
    simpl py_str. rewrite Hlen. apply Nat.eqb_eq in Hlen.
    unfold PyStr.isdigit.
    rewrite (length_not_empty _ _ Hlen).
    rewrite (all_impl _ _ _ isdecimal_isdigit Hall). reflexivity.
  - intros Hne Hbad. destruct s as [|c s]; [congruence|].
    cbn [PyStr.is_empty py_str].
    assert (E : negb (PyStr.isdigit (PyStr.strip (String c s)))
                || negb (String.length (PyStr.strip (String c s)) =? 12)%nat = true).
    { apply orb_true_iff. destruct Hbad as [Hlen|Hall].
      - right. apply negb_true_iff. now apply Nat.eqb_neq.
      - left. unfold PyStr.isdigit. rewrite Hall. now rewrite andb_false_r. }
    rewrite E. reflexivity.
  - intros ->. split; [reflexivity|].
    rewrite check_required_aws_record, errors_record_all. apply in_or_app. right.
    unfold required_aws_params. cbn [omap list_omap].
    unfold required_aws_choice at 1, missing_or_empty at 1. rewrite Hs. simpl. now left.
Qed.

Lemma account_id_format_check_witness :
  let config := [("account_id", PStr "12345")] in
  dict_get "account_id" config = Some (PStr "12345")
  /\ check_account_id config fresh_result
     = record_error fresh_result (account_id_format_error "12345").
Proof.
  intros config. split; [reflexivity|].
  refine (proj1 (proj2 (account_id_format_check config fresh_result "12345" eq_refl)) _ _).
  - discriminate.
  - left. vm_compute. discriminate.
Defined.

Lemma check_required_cognito_record config r :
  check_required_cognito config r
  = record_all r (omap (required_cognito_choice config) required_cognito_params).
Proof.
  apply for_each_record. intros r' x. unfold required_cognito_choice.
  now destruct (missing_or_empty config x).
Qed.

Lemma check_required_gateway_record config r :
  check_required_gateway config r
  = record_all r (omap (required_gateway_choice config) required_gateway_params).
Proof.
  apply for_each_record. intros r' x. unfold required_gateway_choice.
  now destruct (missing_or_empty config x).
Qed.

Lemma check_placeholders_record config r :
  check_placeholders config r = record_all r (omap placeholder_choice config).
Proof.
  apply for_each_record. intros r' [key [| | |value]]; try reflexivity.
  unfold placeholder_choice.
  now destruct (PyStr.list_in value placeholder_values).
Qed.

Lemma record_all_fresh_errors es : errors (record_all fresh_result es) = es.
Proof. now rewrite errors_record_all. Qed.

(** Each check adds to the result it is given the errors it would add to a
    fresh one: what it reports does not depend on the checks before it. *)
Lemma check_required_aws_independent config r :
  check_required_aws config r
  = record_all r (errors (check_required_aws config fresh_result)).
Proof. now rewrite !check_required_aws_record, record_all_fresh_errors. Qed.

Lemma check_required_cognito_independent config r :
  check_required_cognito config r
  = record_all r (errors (check_required_cognito config fresh_result)).
Proof. now rewrite !check_required_cognito_record, record_all_fresh_errors. Qed.

Lemma check_required_gateway_independent config r :
  check_required_gateway config r
  = record_all r (errors (check_required_gateway config fresh_result)).
Proof. now rewrite !check_required_gateway_record, record_all_fresh_errors. Qed.

Lemma check_placeholders_independent config r :
  check_placeholders config r
  = record_all r (errors (check_placeholders config fresh_result)).
Proof. now rewrite !check_placeholders_record, record_all_fresh_errors. Qed.

Lemma check_account_id_independent config r :
  check_account_id config r
  = record_all r (errors (check_account_id config fresh_result)).
Proof.
  unfold check_account_id. destruct (present config "account_id") as [v|]; [|reflexivity].
  cbv zeta.
  now destruct (negb (PyStr.isdigit (PyStr.strip (py_str v)))
                || negb (String.length (PyStr.strip (py_str v)) =? 12)%nat).
Qed.

Lemma check_region_independent config r :
  strippable config "region" = true ->
  check_region config r
  = Return (record_all r (outcome_errors (check_region config fresh_result))).
Proof.
  unfold strippable, check_region.
  destruct (present config "region") as [[| | |s]|]; try discriminate; try reflexivity.
  intros _. cbn [py_strip mbind outcome_bind].
  now destruct (negb (PyStr.isalnum
                  (PyStr.remove_char "_" (PyStr.remove_char "-" (PyStr.strip s))))).
Qed.

Lemma check_user_pool_id_independent config r :
  strippable config "user_pool_id" = true ->
  check_user_pool_id config r
  = Return (record_all r (outcome_errors (check_user_pool_id config fresh_result))).
Proof.
  unfold strippable, check_user_pool_id.
  destruct (present config "user_pool_id") as [[| | |s]|]; try discriminate; try reflexivity.
  intros _. cbn [py_strip mbind outcome_bind].
  now destruct (negb (PyStr.contains_char "_" (PyStr.strip s))
                || negb (PyStr.isalnum
                     (PyStr.remove_char "-" (PyStr.split_head "_" (PyStr.strip s))))).
Qed.

Lemma check_endpoint_urls_independent config r :
  strippable config "endpoint_url" = true ->
  strippable config "credential_provider_endpoint_url" = true ->
  check_endpoint_urls config r
  = Return (record_all r (outcome_errors (check_endpoint_urls config fresh_result))).
Proof.
  unfold strippable, check_endpoint_urls. cbn [for_each_m].
  destruct (present config "endpoint_url") as [[| | |s1]|]; try discriminate;
  destruct (present config "credential_provider_endpoint_url") as [[| | |s2]|];
    try discriminate; intros _ _; cbn [py_strip mbind outcome_bind];
    repeat match goal with
           | |- context [negb (PyStr.startswith ?a ?b)] =>
               destruct (negb (PyStr.startswith a b))
           end; reflexivity.
Qed.

Lemma strip_safe_keys config :
  strip_safe config = true ->
  strippable config "region" = true
  /\ strippable config "endpoint_url" = true
  /\ strippable config "credential_provider_endpoint_url" = true
  /\ strippable config "user_pool_id" = true.
Proof.
  unfold strip_safe. cbn [forallb]. rewrite !andb_true_iff. tauto.
Qed.

(** On a mapping whose trimmed values are strings the validation returns,
    and its result is the fresh result extended with what every check
    reports. *)
Lemma validate_config_record config :
  strip_safe config = true ->
  validate_config config = Return (record_all fresh_result (reported_errors config)).
Proof.
  intros Hsafe. destruct (strip_safe_keys config Hsafe) as (Hr & Hu1 & Hu2 & Hp).
  unfold reported_errors.
  set (E1 := errors (check_required_aws config fresh_result)).
  set (E2 := errors (check_required_cognito config fresh_result)).
  set (E3 := errors (check_required_gateway config fresh_result)).
  set (E4 := errors (check_account_id config fresh_result)).
  set (E5 := outcome_errors (check_region config fresh_result)).
  set (E6 := outcome_errors (check_endpoint_urls config fresh_result)).
  set (E7 := outcome_errors (check_user_pool_id config fresh_result)).
  set (E8 := errors (check_placeholders config fresh_result)).
  rewrite !record_all_app.
  unfold validate_config. cbv zeta.
  change (ValidationResult.mk true VALID [] []) with fresh_result.
  assert (H1 : check_required_aws config fresh_result = record_all fresh_result E1)
    by apply check_required_aws_independent.
  rewrite H1.
  set (r1 := record_all fresh_result E1).
  rewrite (check_required_cognito_independent config r1). fold E2.
  set (r2 := record_all r1 E2).
  rewrite (check_required_gateway_independent config r2). fold E3.
  set (r3 := record_all r2 E3).
  rewrite (check_account_id_independent config r3). fold E4.
  set (r4 := record_all r3 E4).
  rewrite (check_region_independent config r4 Hr). fold E5.
  cbn [mbind outcome_bind].
  set (r5 := record_all r4 E5).
  rewrite (check_endpoint_urls_independent config r5 Hu1 Hu2). fold E6.
  cbn [mbind outcome_bind].
  set (r6 := record_all r5 E6).
  rewrite (check_user_pool_id_independent config r6 Hp). fold E7.
  cbn [mbind outcome_bind].
  set (r7 := record_all r6 E7).
  rewrite (check_placeholders_independent config r7). fold E8.
  reflexivity.
Qed.

Lemma has_str_present (p : string -> bool) config key :
  (forall s, p s = true -> PyStr.is_empty s = false) ->
  has_str p config key = true ->
  exists s, p s = true
    /\ present config key = Some (PStr s)
    /\ missing_or_empty config key = false.
Proof.
  intros Hp. unfold has_str, present, missing_or_empty.
  destruct (dict_get key config) as [[| | |s]|]; try discriminate.
  intros Hs. exists s. simpl. rewrite (Hp s Hs). auto.
Qed.

Lemma twelve_decimal_digits_not_empty s :
  twelve_decimal_digits s = true -> PyStr.is_empty s = false.
Proof.
  unfold twelve_decimal_digits. rewrite andb_true_iff. intros [H _].
  apply Nat.eqb_eq in H. eapply length_not_empty; eassumption.
Qed.

Lemma well_formed_region_not_empty s :
  well_formed_region s = true -> PyStr.is_empty s = false.
Proof.
  unfold well_formed_region. rewrite andb_true_iff. intros [_ H].
  eapply any_not_empty; eassumption.
Qed.

Lemma https_url_not_empty s : https_url s = true -> PyStr.is_empty s = false.
Proof. now destruct s. Qed.

Lemma well_formed_pool_id_not_empty s :
  well_formed_pool_id s = true -> PyStr.is_empty s = false.
Proof.
  unfold well_formed_pool_id. rewrite !andb_true_iff. intros [[H _] _].
  eapply any_not_empty; eassumption.
Qed.

Lemma twelve_decimal_digits_accepted s :
  twelve_decimal_digits s = true ->
  PyStr.strip s = s /\ PyStr.isdigit s = true /\ (String.length s =? 12)%nat = true.
Proof.
  intros H. pose proof (twelve_decimal_digits_not_empty s H) as Hne.
  unfold twelve_decimal_digits in H. apply andb_true_iff in H. destruct H as [Hlen Hall].
  split; [|split; [|exact Hlen]].
  - apply strip_no_space. revert Hall. apply all_impl. intros c Hc.
    apply negb_true_iff, isalnum_not_space, isdigit_isalnum, isdecimal_isdigit, Hc.
  - unfold PyStr.isdigit. rewrite Hne. simpl.
    revert Hall. apply all_impl, isdecimal_isdigit.
Qed.

Lemma region_char_not_space c :
  PyStr.isalnum_char c || Ascii.eqb c "-" || Ascii.eqb c "_" = true ->
  negb (PyStr.isspace_char c) = true.
Proof.
  rewrite !orb_true_iff, negb_true_iff. intros [[H|H]|H].
  - now apply isalnum_not_space.
  - apply Ascii.eqb_eq in H. now subst.
  - apply Ascii.eqb_eq in H. now subst.
Qed.

Lemma well_formed_region_accepted s :
  well_formed_region s = true ->
  PyStr.strip s = s
  /\ PyStr.isalnum (PyStr.remove_char "_" (PyStr.remove_char "-" s)) = true.
Proof.
  unfold well_formed_region. rewrite andb_true_iff. intros [Hall Hany].
  split.
  - apply strip_no_space. revert Hall. apply all_impl, region_char_not_space.
  - unfold PyStr.isalnum. apply andb_true_iff. split.
    + apply negb_true_iff. apply (any_not_empty PyStr.isalnum_char).
      apply any_remove_char; [apply isalnum_not_underscore|].
      apply any_remove_char; [apply isalnum_not_hyphen|assumption].
    + apply (all_remove_char
               (fun c => PyStr.isalnum_char c || Ascii.eqb c "_")).
      { intros c Hc E. rewrite E in Hc. now rewrite orb_false_r in Hc. }
      apply (all_remove_char
               (fun c => PyStr.isalnum_char c || Ascii.eqb c "-" || Ascii.eqb c "_"));
        [|assumption].
      intros c Hc E. rewrite E in Hc. now rewrite orb_false_r in Hc.
Qed.

Lemma https_url_accepted s :
  https_url s = true -> PyStr.startswith "https://" (PyStr.strip s) = true.
Proof.
  unfold https_url, PyStr.strip. intros H.
  destruct s as [|c s]; [discriminate|].
  assert (Hc : c = "h"%char).
  { pose proof H as H'. cbn [PyStr.startswith] in H'.
    apply andb_true_iff in H'. destruct H' as [H' _].
    apply Ascii.eqb_eq in H'. now subst. }
  subst c. rewrite lstrip_first by reflexivity.
  apply startswith_rstrip; [reflexivity|exact H].
Qed.

Lemma split_head_first x c s :
  PyStr.split_head x (String c s) <> "" ->
  exists t, PyStr.split_head x (String c s) = String c t.
Proof.
  simpl. destruct (Ascii.eqb c x); [congruence|]. intros _. eauto.
Qed.

Lemma well_formed_pool_id_accepted s :
  well_formed_pool_id s = true ->
  PyStr.contains_char "_" (PyStr.strip s) = true
  /\ PyStr.isalnum (PyStr.remove_char "-" (PyStr.split_head "_" (PyStr.strip s))) = true.
Proof.
  unfold well_formed_pool_id. rewrite !andb_true_iff. intros [[Hsep Hall] Hany].
  assert (Hstrip : PyStr.lstrip s = s).
  { destruct s as [|c s]; [reflexivity|].
    destruct (split_head_first "_" c s) as [t Ht].
    { intros E. rewrite E in Hany. discriminate. }
    rewrite Ht in Hall. simpl in Hall. apply andb_true_iff in Hall.
    destruct Hall as [Hc _]. apply lstrip_first.
    apply orb_true_iff in Hc. destruct Hc as [Hc|Hc].
    - now apply isalnum_not_space.
    - apply Ascii.eqb_eq in Hc. now subst. }
  unfold PyStr.strip. rewrite Hstrip.
  destruct (rstrip_keeps_separator "_" s eq_refl Hsep) as [Hkeep Hh].
  split; [exact Hkeep|]. rewrite Hh.
  unfold PyStr.isalnum. apply andb_true_iff. split.
  - apply negb_true_iff. apply (any_not_empty PyStr.isalnum_char).
    apply any_remove_char; [apply isalnum_not_hyphen|assumption].
  - apply (all_remove_char (fun c => PyStr.isalnum_char c || Ascii.eqb c "-"));
      [|assumption].
    intros c Hc E. rewrite E in Hc. now rewrite orb_false_r in Hc.
Qed.

Lemma placeholder_free_no_error config :
  placeholder_free config = true -> omap placeholder_choice config = [].
Proof.
  unfold placeholder_free.
  induction config as [|[key v] config IH]; [reflexivity|].
  cbn [forallb]. rewrite andb_true_iff. intros [Hv Hrest].
  cbn [omap list_omap]. fold (omap placeholder_choice config).
  rewrite (IH Hrest).
  destruct v as [| | |value]; try reflexivity.
  unfold placeholder_choice. apply negb_true_iff in Hv. now rewrite Hv.
Qed.

(** C6: a mapping that holds every required key with a non-empty,
    well-formed value (twelve-digit account id, region name, https endpoint
    URLs, user-pool id with its separator) and no placeholder value
    validates to [is_valid = true] with no error. *)
Theorem validate_config_accepts_well_formed (config : pydict)
    (Hwf : well_formed_config config = true) :
  exists r,
    validate_config config = Return r
    /\ is_valid r = true
    /\ errors r = [].
Proof.
  exists fresh_result. split; [|split; reflexivity].
  unfold well_formed_config in Hwf. cbn [forallb] in Hwf.
  rewrite !andb_true_iff, !negb_true_iff in Hwf.
  destruct Hwf as [[[[[[Hacc Hreg] Hurl1] Hurl2] Hpool] (Hrole & Hclient & Hgw & Hcp & _)] Hph].
  destruct (has_str_present _ _ _ twelve_decimal_digits_not_empty Hacc)
    as (a & Ha & Hpa & Hma).
  destruct (has_str_present _ _ _ well_formed_region_not_empty Hreg)
    as (g & Hg & Hpg & Hmg).
  destruct (has_str_present _ _ _ https_url_not_empty Hurl1) as (u1 & Hu1 & Hpu1 & Hmu1).
  destruct (has_str_present _ _ _ https_url_not_empty Hurl2) as (u2 & Hu2 & Hpu2 & Hmu2).
  destruct (has_str_present _ _ _ well_formed_pool_id_not_empty Hpool)
    as (p & Hp & Hpp & Hmp).
  unfold validate_config. cbv zeta.
  change (ValidationResult.mk true VALID [] []) with fresh_result.
  assert (H1 : check_required_aws config fresh_result = fresh_result).
  { rewrite check_required_aws_record. unfold required_aws_params.
    cbn [omap list_omap]. unfold required_aws_choice.
    now rewrite Hma, Hmg, Hrole, Hmu1, Hmu2. }
  rewrite H1.
  assert (H2 : check_required_cognito config fresh_result = fresh_result).
  { rewrite check_required_cognito_record. unfold required_cognito_params.
    cbn [omap list_omap]. unfold required_cognito_choice.
    now rewrite Hmp, Hclient. }
  rewrite H2.
  assert (H3 : check_required_gateway config fresh_result = fresh_result).
  { rewrite check_required_gateway_record. unfold required_gateway_params.
    cbn [omap list_omap]. unfold required_gateway_choice.
    now rewrite Hgw, Hcp. }
  rewrite H3.
  assert (H4 : check_account_id config fresh_result = fresh_result).
  { unfold check_account_id. rewrite Hpa. cbn [py_str]. cbv zeta.
    destruct (twelve_decimal_digits_accepted a Ha) as (Es & Ed & El).
    now rewrite Es, Ed, El. }
  rewrite H4.
  assert (H5 : check_region config fresh_result = Return fresh_result).
  { unfold check_region. rewrite Hpg. cbn [py_strip mbind outcome_bind].
    destruct (well_formed_region_accepted g Hg) as (Es & Ea).
    now rewrite Es, Ea. }
  rewrite H5. cbn [mbind outcome_bind].
  assert (H6 : check_endpoint_urls config fresh_result = Return fresh_result).
  { unfold check_endpoint_urls. cbn [for_each_m].
    rewrite Hpu1. cbn [py_strip mbind outcome_bind].
    rewrite (https_url_accepted u1 Hu1). cbn [negb mbind outcome_bind].
    rewrite Hpu2. cbn [py_strip mbind outcome_bind].
    now rewrite (https_url_accepted u2 Hu2). }
  rewrite H6. cbn [mbind outcome_bind].
  assert (H7 : check_user_pool_id config fresh_result = Return fresh_result).
  { unfold check_user_pool_id. rewrite Hpp. cbn [py_strip mbind outcome_bind].
    destruct (well_formed_pool_id_accepted p Hp) as (Ec & Ea).
    now rewrite Ec, Ea. }
  rewrite H7. cbn [mbind outcome_bind].
  rewrite check_placeholders_record, (placeholder_free_no_error config Hph).
  reflexivity.
Qed.

Lemma validate_config_accepts_well_formed_witness :
  well_formed_config sample_config_dict = true
  /\ exists r, validate_config sample_config_dict = Return r
       /\ is_valid r = true
       /\ errors r = [].
Proof.
  assert (Hwf : well_formed_config sample_config_dict = true) by (vm_compute; reflexivity).
  split; [exact Hwf|].
  exact (validate_config_accepts_well_formed sample_config_dict Hwf).
Defined.

Lemma strippable_false config key :
  strippable config key = false ->
  exists v, present config key = Some v /\ py_strip v = Raise AttributeError.
Proof.
  unfold strippable. destruct (present config key) as [[| | |s]|]; try discriminate;
    intros _; eexists; split; reflexivity.
Qed.

(** Outside [strip_safe] the validation does not return: the first format
    check that meets a non-empty value that is not a string raises
    [AttributeError]. *)
Lemma validate_config_raises config :
  strip_safe config = false -> validate_config config = Raise AttributeError.
Proof.
  intros Hsafe. unfold validate_config. cbv zeta.
  set (r4 := check_account_id config _).
  destruct (strippable config "region") eqn:Hr.
  2:{ destruct (strippable_false _ _ Hr) as (v & Hv & Hs).
      unfold check_region. rewrite Hv, Hs. reflexivity. }
  rewrite (check_region_independent config r4 Hr). cbn [mbind outcome_bind].
  set (r5 := record_all r4 _).
  destruct (strippable config "endpoint_url") eqn:Hu1.
  2:{ destruct (strippable_false _ _ Hu1) as (v & Hv & Hs).
      unfold check_endpoint_urls. cbn [for_each_m]. rewrite Hv, Hs. reflexivity. }
  destruct (strippable config "credential_provider_endpoint_url") eqn:Hu2.
  2:{ destruct (strippable_false _ _ Hu2) as (v & Hv & Hs).
      unfold check_endpoint_urls. cbn [for_each_m]. rewrite Hv, Hs.
      unfold strippable in Hu1.
      destruct (present config "endpoint_url") as [[| | |s]|]; try discriminate;
        cbn [py_strip mbind outcome_bind];
        try destruct (negb (PyStr.startswith "https://" (PyStr.strip s)));
        reflexivity. }
  rewrite (check_endpoint_urls_independent config r5 Hu1 Hu2). cbn [mbind outcome_bind].
  destruct (strippable config "user_pool_id") eqn:Hp.
  2:{ destruct (strippable_false _ _ Hp) as (v & Hv & Hs).
      unfold check_user_pool_id. rewrite Hv, Hs. reflexivity. }
  exfalso. unfold strip_safe in Hsafe. cbn [forallb] in Hsafe.
  rewrite Hr, Hu1, Hu2, Hp in Hsafe. discriminate.
Qed.




End ValidateConfigFacts.

(** * Properties of the file operations *)

Section FileFacts.

Import ValidationResult ConfigurationManager.

Context (yaml_safe_load : string -> option document) (yaml_dump : pydict -> string).

Lemma dict_get_set_eq k v d : dict_get k (dict_set k v d) = Some v.
Proof.
  induction d as [|[k' v'] d IH]; simpl.
  - now rewrite String.eqb_refl.
  - destruct (String.eqb k k') eqn:E; simpl; rewrite E; [reflexivity|exact IH].
Qed.

Lemma dict_get_set_ne k k' v d : k' <> k -> dict_get k' (dict_set k v d) = dict_get k' d.
Proof.
  intros Hne. induction d as [|[k0 v0] d IH]; simpl.
  - apply String.eqb_neq in Hne. now rewrite Hne.
  - destruct (String.eqb_spec k k0) as [->|Hk]; simpl.
    + apply String.eqb_neq in Hne. now rewrite Hne.
    + destruct (String.eqb k' k0); [reflexivity|exact IH].
Qed.

Lemma dict_keys_set_bound k v v0 d :
  dict_get k d = Some v0 -> dict_keys (dict_set k v d) = dict_keys d.
Proof.
  unfold dict_keys. induction d as [|[k' v'] d IH]; simpl; [discriminate|].
  destruct (String.eqb k k') eqn:E; simpl; [reflexivity|].
  intros H. now rewrite IH.
Qed.

(** One turn of the clean-up loop. *)
Lemma strip_key_get key k d :
  dict_get k (match dict_get key d with
              | Some (PStr s) => dict_set key (PStr (PyStr.strip s)) d
              | _ => d
              end)
  = (fun v => if String.eqb k key
              then match v with PStr s => PStr (PyStr.strip s) | _ => v end
              else v) <$> dict_get k d.
Proof.
  destruct (String.eqb_spec k key) as [->|Hne].
  - destruct (dict_get key d) as [[| | |s]|] eqn:E; rewrite ?E; try reflexivity.
    now rewrite dict_get_set_eq.
  - destruct (dict_get key d) as [[| | |s]|] eqn:E;
      rewrite ?dict_get_set_ne by assumption;
      now destruct (dict_get k d).
Qed.

Lemma strip_key_keys key d :
  dict_keys (match dict_get key d with
             | Some (PStr s) => dict_set key (PStr (PyStr.strip s)) d
             | _ => d
             end) = dict_keys d.
Proof.
  destruct (dict_get key d) as [[| | |s]|] eqn:E; try reflexivity.
  eapply dict_keys_set_bound; eassumption.
Qed.

Lemma strip_identifiers_get k d :
  dict_get k (strip_identifiers d) = cleaned k <$> dict_get k d.
Proof.
  unfold strip_identifiers, for_each, identifier_keys. cbn [fold_left].
  rewrite !strip_key_get. unfold cleaned, identifier_keys, PyStr.list_in.
  cbn [existsb].
  destruct (dict_get k d) as [v|]; [|reflexivity]. cbn [fmap option_fmap option_map].
  f_equal.
  repeat match goal with
         | |- context [String.eqb k ?key] =>
             destruct (String.eqb_spec k key) as [->|?]; [now destruct v|]
         end.
  reflexivity.
Qed.

Lemma strip_identifiers_keys d : dict_keys (strip_identifiers d) = dict_keys d.
Proof.
  unfold strip_identifiers, for_each, identifier_keys. cbn [fold_left].
  now rewrite !strip_key_keys.
Qed.

Lemma load_config_mapping self config_path fs text d :
  fs !! target_path self config_path = Some text ->
  yaml_safe_load text = Some (DDict d) ->
  load_config yaml_safe_load self config_path fs = Return (strip_identifiers d).
Proof.
  intros Hf Hy. unfold load_config. cbv zeta. rewrite Hf, Hy.
  now destruct d.
Qed.

(** C8: [load_config] raises [FileNotFoundError] when the target file is not
    there and [yaml.YAMLError] when the loader rejects its text; an empty
    (null) document gives the empty mapping; otherwise it returns the parsed
    mapping, the very one the loader built and the clean-up loop went over:
    the same keys in the same order, each value as parsed except that a
    string under an identifier key has lost its surrounding blanks. *)
Theorem load_config_outcomes (self : ConfigurationManager.t)
    (config_path : option string) (fs : filesystem) :
  (fs !! target_path self config_path = None ->
   load_config yaml_safe_load self config_path fs = Raise FileNotFoundError)
  /\ (forall text,
        fs !! target_path self config_path = Some text ->
        yaml_safe_load text = None ->
        load_config yaml_safe_load self config_path fs = Raise YAMLError)
  /\ (forall text,
        fs !! target_path self config_path = Some text ->
        yaml_safe_load text = Some DNone ->
        load_config yaml_safe_load self config_path fs = Return [])
  /\ (forall text d,
        fs !! target_path self config_path = Some text ->
        yaml_safe_load text = Some (DDict d) ->
        exists config,
          load_config yaml_safe_load self config_path fs = Return config
          /\ dict_keys config = dict_keys d
          /\ (forall k, dict_get k config = cleaned k <$> dict_get k d)
          /\ (forall k, PyStr.list_in k identifier_keys = false ->
                        dict_get k config = dict_get k d)).
Proof.
  split; [|split; [|split]].
  - intros Hf. unfold load_config. cbv zeta. now rewrite Hf.
  - intros text Hf Hy. unfold load_config. cbv zeta. now rewrite Hf, Hy.
  - intros text Hf Hy. unfold load_config. cbv zeta. now rewrite Hf, Hy.
  - intros text d Hf Hy. exists (strip_identifiers d).
    split; [now apply (load_config_mapping self config_path fs text)|].
    split; [apply strip_identifiers_keys|].
    split; [intros k; apply strip_identifiers_get|].
    intros k Hk. rewrite strip_identifiers_get. unfold cleaned. rewrite Hk.
    now destruct (dict_get k d).
Qed.

Lemma update_config_parameter_saves self key value fs config :
  load_or_empty yaml_safe_load self fs = Return config ->
  update_config_parameter yaml_safe_load yaml_dump self key value fs
  = Return (<[config_file self := yaml_dump (dict_set key (PStr value) config)]> fs).
Proof.
  intros H. unfold update_config_parameter. rewrite H. reflexivity.
Qed.

(** C4 (amended): [update_config_parameter] saves the mapping [load_config]
    returns with the one key set.  For every other key the saved value is
    the stored one, except that a string stored under an identifier key is
    saved without its surrounding blanks; keys outside the identifier list
    keep exactly the stored value.  A missing file, like an empty document,
    gives a mapping with the new key alone. *)
Theorem update_config_parameter_frame (self : ConfigurationManager.t)
    (key value : string) (fs : filesystem) :
  (fs !! config_file self = None ->
   update_config_parameter yaml_safe_load yaml_dump self key value fs
   = Return (<[config_file self := yaml_dump [(key, PStr value)]]> fs))
  /\ (forall text,
        fs !! config_file self = Some text ->
        yaml_safe_load text = Some DNone ->
        update_config_parameter yaml_safe_load yaml_dump self key value fs
        = Return (<[config_file self := yaml_dump [(key, PStr value)]]> fs))
  /\ (forall text d,
        fs !! config_file self = Some text ->
        yaml_safe_load text = Some (DDict d) ->
        exists saved,
          saved = dict_set key (PStr value) (strip_identifiers d)
          /\ update_config_parameter yaml_safe_load yaml_dump self key value fs
             = Return (<[config_file self := yaml_dump saved]> fs)
          /\ dict_get key saved = Some (PStr value)
          /\ (forall k, k <> key -> dict_get k saved = cleaned k <$> dict_get k d)
          /\ (forall k, k <> key -> PyStr.list_in k identifier_keys = false ->
                        dict_get k saved = dict_get k d)).
Proof.
  split; [|split].
  - intros Hf. apply (update_config_parameter_saves self key value fs []).
    unfold load_or_empty, load_config. cbn [target_path]. now rewrite Hf.
  - intros text Hf Hy. apply (update_config_parameter_saves self key value fs []).
    unfold load_or_empty, load_config. cbn [target_path]. now rewrite Hf, Hy.
  - intros text d Hf Hy. eexists. split; [reflexivity|].
    split.
    { apply update_config_parameter_saves. unfold load_or_empty.
      now rewrite (load_config_mapping self None fs text d Hf Hy). }
    split; [apply dict_get_set_eq|].
    split.
    + intros k Hk. rewrite dict_get_set_ne by assumption. apply strip_identifiers_get.
    + intros k Hk Hid. rewrite dict_get_set_ne by assumption.
      rewrite strip_identifiers_get. unfold cleaned. rewrite Hid.
      now destruct (dict_get k d).
Qed.

(** C7: [create_template_files] writes each of its two files only where
    none is stored, so a file that is there keeps its text, no other path is
    touched, and a second call right after a first changes nothing. *)
Theorem create_template_files_idempotent (self : ConfigurationManager.t)
    (fs : filesystem) :
  create_template_files yaml_dump self (create_template_files yaml_dump self fs)
  = create_template_files yaml_dump self fs
  /\ (forall path text,
        fs !! path = Some text ->
        create_template_files yaml_dump self fs !! path = Some text)
  /\ (forall path,
        path <> joinpath (config_dir self) "config.yaml" ->
        path <> joinpath (config_dir self) ".env.example" ->
        create_template_files yaml_dump self fs !! path = fs !! path)
  /\ is_Some (create_template_files yaml_dump self fs
                !! joinpath (config_dir self) "config.yaml")
  /\ is_Some (create_template_files yaml_dump self fs
                !! joinpath (config_dir self) ".env.example").
Proof.
  unfold create_template_files. cbv zeta.
  set (c := joinpath (config_dir self) "config.yaml").
  set (e := joinpath (config_dir self) ".env.example").
  set (t := "# AgentCore Gateway Configuration" +:+ _).
  set (fs1 := match fs !! c with None => <[c:=t]> fs | Some _ => fs end).
  assert (Hc1 : is_Some (fs1 !! c)).
  { subst fs1. destruct (fs !! c) eqn:E; [rewrite E; eauto|].
    rewrite lookup_insert_eq. eauto. }
  assert (Hkeep1 : forall path text, fs !! path = Some text -> fs1 !! path = Some text).
  { intros path text H. subst fs1. destruct (fs !! c) eqn:E; [exact H|].
    rewrite lookup_insert_ne; [exact H|]. intros ->. congruence. }
  set (fs2 := match fs1 !! e with None => <[e:=env_template]> fs1 | Some _ => fs1 end).
  assert (Hkeep2 : forall path text, fs1 !! path = Some text -> fs2 !! path = Some text).
  { intros path text H. subst fs2. destruct (fs1 !! e) eqn:E; [exact H|].
    rewrite lookup_insert_ne; [exact H|]. intros ->. congruence. }
  assert (He2 : is_Some (fs2 !! e)).
  { subst fs2. destruct (fs1 !! e) eqn:E; [rewrite E; eauto|].
    rewrite lookup_insert_eq. eauto. }
  assert (Hc2 : is_Some (fs2 !! c)).
  { destruct Hc1 as [x Hx]. exists x. now apply Hkeep2. }
  split; [|split; [|split; [|split]]].
  - destruct Hc2 as [x Hx]. rewrite Hx.
    destruct He2 as [y Hy]. now rewrite Hy.
  - intros path text H. now apply Hkeep2, Hkeep1.
  - intros path Hpc Hpe. subst fs2 fs1.
    destruct (fs !! c) eqn:Ec.
    + destruct (fs !! e) eqn:Ee; [reflexivity|]. now rewrite lookup_insert_ne.
    + destruct (<[c:=t]> fs !! e) eqn:Ee.
      * now rewrite lookup_insert_ne.
      * rewrite lookup_insert_ne by congruence. now rewrite lookup_insert_ne.
  - exact Hc2.
  - exact He2.
Qed.

Lemma validate_environment_variables_record self environ required_vars fs :
  validate_environment_variables self environ required_vars fs
  = record_all fresh_result
      (omap (env_choice (dict_update environ (load_environment_variables self fs)))
         required_vars).
Proof.
  unfold validate_environment_variables. cbv zeta.
  apply for_each_record. intros r var. unfold env_choice.
  now destruct (match dict_update environ (load_environment_variables self fs) !! var with
                | Some v => PyStr.is_empty v
                | None => true
                end).
Qed.

Lemma env_choice_field env_vars var e :
  env_choice env_vars var = Some e -> ValidationError.field e = var.
Proof.
  unfold env_choice.
  destruct (match env_vars !! var with Some v => PyStr.is_empty v | None => true end);
    [|discriminate].
  intros [= <-]. reflexivity.
Qed.

Lemma dict_update_lookup_file environ file var v :
  file !! var = Some v -> dict_update environ file !! var = Some v.
Proof. intros H. unfold dict_update. now apply lookup_union_Some_l. Qed.

Lemma is_empty_eq s : PyStr.is_empty s = true <-> s = "".
Proof. destruct s; simpl; split; congruence. Qed.

(** C9: when the environment file defines a variable, its value there is the
    one [validate_environment_variables] checks, whatever the process
    environment holds for the same name: the variable is reported exactly
    when the file's value is empty, and changing the process environment's
    value for it changes nothing. *)
Theorem environment_file_takes_precedence (self : ConfigurationManager.t)
    (environ : gmap string string) (required_vars : list string) (fs : filesystem)
    (var v_file : string)
    (Hfile : load_environment_variables self fs !! var = Some v_file)
    (Hreq : In var required_vars) :
  (reports (errors (validate_environment_variables self environ required_vars fs)) var
   <-> v_file = "")
  /\ (forall v_env,
        validate_environment_variables self (<[var := v_env]> environ) required_vars fs
        = validate_environment_variables self environ required_vars fs).
Proof.
  split.
  - rewrite validate_environment_variables_record, record_all_fresh_errors.
    set (env_vars := dict_update environ (load_environment_variables self fs)).
    assert (Hv : env_vars !! var = Some v_file) by now apply dict_update_lookup_file.
    unfold reports. split.
    + intros (e & He & Hf). apply list_elem_of_In, list_elem_of_omap in He.
      destruct He as (var' & _ & Hc).
      pose proof (env_choice_field _ _ _ Hc) as Hf'. rewrite Hf in Hf'. subst var'.
      unfold env_choice in Hc. rewrite Hv in Hc.
      destruct (PyStr.is_empty v_file) eqn:E; [now apply is_empty_eq|discriminate].
    + intros ->.
      eexists. split.
      * apply list_elem_of_In, list_elem_of_omap. exists var.
        split; [now apply list_elem_of_In|].
        unfold env_choice. rewrite Hv. reflexivity.
      * reflexivity.
  - intros v_env. rewrite !validate_environment_variables_record.
    assert (E : dict_update (<[var := v_env]> environ) (load_environment_variables self fs)
                = dict_update environ (load_environment_variables self fs)).
    { unfold dict_update. apply map_eq. intros k. rewrite !lookup_union.
      destruct (decide (k = var)) as [->|Hne].
      - rewrite Hfile, lookup_insert_eq. now destruct (environ !! var).
      - now rewrite lookup_insert_ne. }
    now rewrite E.
Qed.

End FileFacts.

(** * The file operations on concrete files *)

Section ConcreteFiles.

Import ValidationResult ConfigurationManager.

(** C4 (as stated, refuted): the template stores the role name with a
    trailing blank; updating the account id saves the role name without it,
    so a key other than the updated one has changed. *)
Lemma update_config_parameter_trims_other_key :
  let stored := [("role_name", PStr "SRE-Agent-Gateway-Role ")] in
  let text := render_lines stored in
  let self := init "." in
  let fs : filesystem := {[ config_file self := text ]} in
  let saved := [("role_name", PStr "SRE-Agent-Gateway-Role");
                ("account_id", PStr "123456789012")] in
  fs !! config_file self = Some text
  /\ reads_as text stored text = Some (DDict stored)
  /\ update_config_parameter (reads_as text stored) render_lines self
       "account_id" "123456789012" fs
     = Return (<[config_file self := render_lines saved]> fs)
  /\ dict_get "role_name" saved = Some (PStr "SRE-Agent-Gateway-Role")
  /\ dict_get "role_name" stored = Some (PStr "SRE-Agent-Gateway-Role ")
  /\ dict_get "role_name" saved <> dict_get "role_name" stored.
Proof.
  intros stored text self fs saved.
  split; [apply lookup_singleton_eq|].
  split; [vm_compute; reflexivity|].
  split.
  { unfold update_config_parameter, load_or_empty, load_config.
    cbn [target_path]. unfold fs. rewrite lookup_singleton_eq.
    replace (reads_as text stored text) with (Some (DDict stored))
      by (vm_compute; reflexivity).
    reflexivity. }
  split; [reflexivity|]. split; [reflexivity|].
  vm_compute. intros H. discriminate H.
Qed.

Lemma update_config_parameter_frame_witness :
  let self := init "." in
  (∅ : filesystem) !! config_file self = None
  /\ update_config_parameter (reads_as "" []) render_lines self "region" "us-east-1" ∅
     = Return {[ config_file self := render_lines [("region", PStr "us-east-1")] ]}.
Proof.
  intros self.
  assert (H : (∅ : filesystem) !! config_file self = None) by apply lookup_empty.
  split; [exact H|].
  rewrite (proj1 (update_config_parameter_frame (reads_as "" []) render_lines
                    self "region" "us-east-1" ∅) H).
  reflexivity.
Defined.

Lemma load_config_outcomes_witness :
  let self := init "." in
  (∅ : filesystem) !! target_path self None = None
  /\ load_config (reads_as "" []) self None ∅ = Raise FileNotFoundError.
Proof.
  intros self.
  assert (H : (∅ : filesystem) !! target_path self None = None) by apply lookup_empty.
  split; [exact H|].
  exact (proj1 (load_config_outcomes (reads_as "" []) self None ∅) H).
Defined.

Lemma create_template_files_idempotent_witness :
  let self := init "." in
  let fs : filesystem := {[ joinpath "." "config.yaml" := "account_id: '123456789012'" ]} in
  fs !! joinpath "." "config.yaml" = Some "account_id: '123456789012'"
  /\ create_template_files render_lines self fs !! joinpath "." "config.yaml"
     = Some "account_id: '123456789012'".
Proof.
  intros self fs.
  assert (H : fs !! joinpath "." "config.yaml" = Some "account_id: '123456789012'")
    by apply lookup_singleton_eq.
  split; [exact H|].
  exact (proj1 (proj2 (create_template_files_idempotent render_lines self fs)) _ _ H).
Defined.

Lemma environment_file_takes_precedence_witness :
  let self := init "." in
  let fs : filesystem := {[ env_file self := "BACKEND_API_KEY=" ]} in
  let environ : gmap string string := {[ "BACKEND_API_KEY" := "from-the-shell" ]} in
  load_environment_variables self fs !! "BACKEND_API_KEY" = Some ""
  /\ In "BACKEND_API_KEY" ["BACKEND_API_KEY"]
  /\ reports (errors (validate_environment_variables self environ
                        ["BACKEND_API_KEY"] fs)) "BACKEND_API_KEY".
Proof.
  intros self fs environ.
  assert (Hfile : load_environment_variables self fs !! "BACKEND_API_KEY" = Some "")
    by (vm_compute; reflexivity).
  assert (Hreq : In "BACKEND_API_KEY" ["BACKEND_API_KEY"]) by (left; reflexivity).
  split; [exact Hfile|]. split; [exact Hreq|].
  exact (proj2 (proj1 (environment_file_takes_precedence self environ
                         ["BACKEND_API_KEY"] fs "BACKEND_API_KEY" "" Hfile Hreq))
           eq_refl).
Defined.

End ConcreteFiles.

(** * Further properties of the data models *)

Section ValidationResultRuns.

Import ValidationResult.

Lemma validation_run_app calls1 calls2 r :
  validation_run (calls1 ++ calls2) r = validation_run calls2 (validation_run calls1 r).
Proof. apply fold_left_app. Qed.

Lemma validation_run_errors calls : forall r,
  errors (validation_run calls r) = errors r ++ errors_of_calls calls.
Proof.
  unfold validation_run, errors_of_calls.
  induction calls as [|[e|w] calls IH]; intros r; cbn [fold_left omap list_omap].
  - now rewrite app_nil_r.
  - rewrite IH. cbn. destruct e. now rewrite <- app_assoc.
  - rewrite IH. reflexivity.
Qed.

Lemma validation_run_warnings calls : forall r,
  warnings (validation_run calls r) = warnings r ++ warnings_of_calls calls.
Proof.
  unfold validation_run, warnings_of_calls.
  induction calls as [|[e|w] calls IH]; intros r; cbn [fold_left omap list_omap].
  - now rewrite app_nil_r.
  - rewrite IH. reflexivity.
  - rewrite IH. cbn. now rewrite <- app_assoc.
Qed.

Lemma validation_run_invalid calls : forall r,
  is_valid r = false -> status r = INVALID ->
  is_valid (validation_run calls r) = false /\ status (validation_run calls r) = INVALID.
Proof.
  unfold validation_run.
  induction calls as [|[e|w] calls IH]; intros r Hv Hs; cbn [fold_left]; [easy| |].
  - apply IH; reflexivity.
  - apply IH; cbn; [exact Hv|now rewrite Hs].
Qed.

Lemma validation_run_is_valid calls : forall r,
  is_valid (validation_run calls r)
  = match errors_of_calls calls with [] => is_valid r | _ :: _ => false end.
Proof.
  unfold validation_run, errors_of_calls.
  induction calls as [|[e|w] calls IH]; intros r; cbn [fold_left omap list_omap].
  - reflexivity.
  - destruct (validation_run_invalid calls (record_error r e) eq_refl eq_refl) as [H _].
    exact H.
  - rewrite IH. reflexivity.
Qed.

Lemma validation_run_status calls : forall r,
  status (validation_run calls r)
  = match errors_of_calls calls with
    | _ :: _ => INVALID
    | [] => match warnings_of_calls calls with
            | [] => status r
            | _ :: _ => match status r with VALID => WARNING | s => s end
            end
    end.
Proof.
  unfold validation_run, errors_of_calls, warnings_of_calls.
  induction calls as [|[e|w] calls IH]; intros r; cbn [fold_left omap list_omap].
  - reflexivity.
  - destruct (validation_run_invalid calls (record_error r e) eq_refl eq_refl) as [_ H].
    exact H.
  - rewrite IH. cbn [validation_perform add_warning status].
    destruct (omap _ calls); [|reflexivity].
    destruct (omap _ calls); destruct (status r); reflexivity.
Qed.

(** X1: on a result that starts fresh, whatever sequence of [add_error] and
    [add_warning] calls it receives, the flag and the status always tell
    what the lists hold: [is_valid] exactly when there is no error,
    [INVALID] exactly when there is one, [WARNING] exactly when there are
    warnings and no error, [VALID] exactly when both lists are empty. *)
Theorem validation_result_status_tracks_lists (calls : list validation_call) :
  let r := validation_run calls fresh_result in
  (is_valid r = true <-> errors r = [])
  /\ (status r = INVALID <-> errors r <> [])
  /\ (status r = WARNING <-> errors r = [] /\ warnings r <> [])
  /\ (status r = VALID <-> errors r = [] /\ warnings r = []).
Proof.
  cbv zeta.
  rewrite validation_run_is_valid, validation_run_status,
    validation_run_errors, validation_run_warnings.
  cbn [errors warnings fresh_result is_valid status app].
  destruct (errors_of_calls calls), (warnings_of_calls calls);
    repeat split; intros; try congruence; try tauto;
    repeat match goal with H : _ /\ _ |- _ => destruct H end; congruence.
Qed.

(** X2: no call ever takes anything back.  On any result, after any
    sequence of calls, the errors and warnings it held are still there, in
    front of the ones the calls added in order, and a result that was
    invalid stays invalid. *)
Theorem validation_result_only_grows (calls : list validation_call)
    (r : ValidationResult.t) :
  errors (validation_run calls r) = errors r ++ errors_of_calls calls
  /\ warnings (validation_run calls r) = warnings r ++ warnings_of_calls calls
  /\ length (errors_of_calls calls) + length (warnings_of_calls calls) = length calls
  /\ (is_valid r = false -> is_valid (validation_run calls r) = false)
  /\ (status r = INVALID -> status (validation_run calls r) = INVALID).
Proof.
  split; [apply validation_run_errors|].
  split; [apply validation_run_warnings|].
  split.
  { unfold errors_of_calls, warnings_of_calls.
    induction calls as [|[e|w] calls IH]; cbn [omap list_omap length]; [reflexivity| |].
    - cbn. fold (omap (fun c => match c with AddError e => Some e | AddWarning _ => None end) calls).
      lia.
    - cbn. lia. }
  split.
  - intros Hv. rewrite validation_run_is_valid, Hv. now destruct (errors_of_calls calls).
  - intros Hs. rewrite validation_run_status, Hs.
    destruct (errors_of_calls calls), (warnings_of_calls calls); reflexivity.
Qed.

Lemma validation_result_only_grows_witness :
  let r := record_error fresh_result (required_aws_error "region") in
  is_valid r = false
  /\ is_valid (validation_run [AddWarning "limited permissions"] r) = false.
Proof.
  intros r. split; [reflexivity|].
  exact (proj1 (proj2 (proj2 (proj2
    (validation_result_only_grows [AddWarning "limited permissions"] r)))) eq_refl).
Defined.

End ValidationResultRuns.

Section SetupStateRuns.

Import SetupState.

Lemma step_after_perform st c : step (perform st c) = step st.
Proof. now destruct c. Qed.

Lemma completed_grows st c x :
  In x (completed_steps st) -> In x (completed_steps (perform st c)).
Proof.
  destruct c as [s|s]; cbn [perform]; [|easy].
  intros H. apply completed_after_completed. now left.
Qed.

Lemma NoDup_completed_completed st s :
  List.NoDup (completed_steps st) -> List.NoDup (completed_steps (mark_step_completed st s)).
Proof.
  intros Hnd. unfold mark_step_completed; cbn [completed_steps].
  destruct (PyStr.list_in s (completed_steps st)) eqn:E; cbn [negb]; [easy|].
  apply NoDup_snoc; [assumption|now apply list_in_false].
Qed.

(** X3: a step that can be resumed from stays so.  Neither method ever
    removes a completed step or changes the current step, so after any
    further sequence of calls [can_resume_from] still answers true; and it
    answers true for a step as soon as that step is marked completed. *)
Theorem can_resume_from_is_kept (calls : list call) (st : SetupState.t) (s : string) :
  (can_resume_from st s = true -> can_resume_from (run calls st) s = true)
  /\ can_resume_from (run calls (mark_step_completed st s)) s = true
  /\ can_resume_from (run calls st) (step st) = true.
Proof.
  assert (Hkeep : forall calls st s,
             can_resume_from st s = true -> can_resume_from (run calls st) s = true).
  { clear. unfold run. induction calls as [|c calls IH]; intros st s H; cbn [fold_left];
      [exact H|].
    apply IH. unfold can_resume_from in *. rewrite step_after_perform.
    apply orb_true_iff in H. apply orb_true_iff. destruct H as [H|H]; [left|now right].
    apply list_in_In. apply completed_grows. now apply list_in_In. }
  split; [apply Hkeep|]. split.
  - apply Hkeep. unfold can_resume_from. apply orb_true_iff. left.
    apply list_in_In, completed_after_completed. now right.
  - apply Hkeep. unfold can_resume_from. rewrite String.eqb_refl. apply orb_true_r.
Qed.

Lemma can_resume_from_is_kept_witness :
  let st := mark_step_completed (fresh "init" 0) "create_bucket" in
  can_resume_from st "create_bucket" = true
  /\ can_resume_from (run [Failed "create_bucket"; Completed "gateway"] st)
       "create_bucket" = true.
Proof.
  intros st. split; [reflexivity|].
  exact (proj1 (can_resume_from_is_kept [Failed "create_bucket"; Completed "gateway"]
                  st "create_bucket") eq_refl).
Defined.

(** X4: marking is idempotent.  Marking a step failed twice is the same as
    marking it once; so is marking it completed, provided [failed_steps]
    holds no step twice (otherwise each call removes one more occurrence).
    Both lists of a state reached from a fresh one are duplicate-free. *)
Theorem marking_is_idempotent (st : SetupState.t) (s : string)
    (Hnd : List.NoDup (failed_steps st)) :
  mark_step_failed (mark_step_failed st s) s = mark_step_failed st s
  /\ mark_step_completed (mark_step_completed st s) s = mark_step_completed st s
  /\ (forall calls step now,
        List.NoDup (completed_steps (run calls (fresh step now)))
        /\ List.NoDup (failed_steps (run calls (fresh step now)))).
Proof.
  split; [|split].
  - unfold mark_step_failed; cbn [failed_steps completed_steps step configuration timestamp].
    destruct (PyStr.list_in s (failed_steps st)) eqn:E; cbn [negb].
    + now rewrite E.
    + assert (E' : PyStr.list_in s (failed_steps st ++ [s]) = true).
      { apply list_in_In, in_or_app. right. now left. }
      now rewrite E'.
  - assert (Hc : PyStr.list_in s (completed_steps (mark_step_completed st s)) = true).
    { apply list_in_In, completed_after_completed. now right. }
    assert (Hf : PyStr.list_in s (failed_steps (mark_step_completed st s)) = false).
    { apply list_in_false. now apply completed_not_failed. }
    unfold mark_step_completed at 1.
    rewrite Hc, Hf. cbn [negb]. now destruct (mark_step_completed st s).
  - intros calls step now. split; [|apply NoDup_failed_reachable; constructor].
    unfold run.
    assert (H : forall st0, List.NoDup (completed_steps st0) ->
                List.NoDup (completed_steps (fold_left perform calls st0))).
    { clear. induction calls as [|c calls IH]; intros st0 H0; cbn [fold_left]; [exact H0|].
      apply IH. destruct c; [now apply NoDup_completed_completed|exact H0]. }
    apply H. constructor.
Qed.

Lemma marking_is_idempotent_witness :
  let st := mark_step_failed (fresh "init" 0) "create_bucket" in
  List.NoDup (failed_steps st)
  /\ mark_step_completed (mark_step_completed st "create_bucket") "create_bucket"
     = mark_step_completed st "create_bucket".
Proof.
  intros st.
  assert (Hnd : List.NoDup (failed_steps st)).
  { cbn. constructor; [easy|constructor]. }
  split; [exact Hnd|].
  exact (proj1 (proj2 (marking_is_idempotent st "create_bucket" Hnd))).
Defined.

End SetupStateRuns.

Section SetupResultRuns.

Import SetupResult.

(** X5: errors accumulate in call order and nothing else is touched.  After
    any sequence of [add_error] calls the error list is the old one followed
    by the new errors, the warnings and the two result fields are as before,
    and [success] holds only if it held and no error was added. *)
Theorem setup_errors_accumulate (es : list SetupError.t) (r : SetupResult.t) :
  errors (for_each es add r) = errors r ++ es
  /\ warnings (for_each es add r) = warnings r
  /\ gateway_url (for_each es add r) = gateway_url r
  /\ provider_arn (for_each es add r) = provider_arn r
  /\ (success (for_each es add r) = true <-> success r = true /\ es = []).
Proof.
  unfold for_each. revert r.
  induction es as [|e es IH]; intros r; cbn [fold_left].
  - rewrite app_nil_r. repeat split; tauto.
  - destruct (IH (add r e)) as (He & Hw & Hg & Hp & Hs).
    rewrite He, Hw, Hg, Hp, Hs.
    split. { cbn. destruct e. now rewrite <- app_assoc. }
    split; [reflexivity|]. split; [reflexivity|]. split; [reflexivity|].
    cbn [add add_error success]. split.
    + intros [H _]. discriminate H.
    + intros [_ H]. discriminate H.
Qed.

End SetupResultRuns.

(** * Properties of [strip] and of the configuration records *)

Section StripFacts.

Import PyStr.

Lemma rstrip_idempotent s : rstrip (rstrip s) = rstrip s.
Proof.
  induction s as [|c s IH]; [reflexivity|].
  cbn [rstrip]. destruct (rstrip s) as [|d r] eqn:E.
  - destruct (isspace_char c) eqn:Hc; [reflexivity|]. cbn [rstrip]. now rewrite Hc.
  - change (rstrip (String c (String d r)))
      with (match rstrip (String d r) with
            | EmptyString => if isspace_char c then EmptyString else String c EmptyString
            | String d' r' => String c (String d' r')
            end).
    now rewrite IH.
Qed.

Lemma lstrip_head s :
  lstrip s = "" \/ exists c t, lstrip s = String c t /\ isspace_char c = false.
Proof.
  induction s as [|c s IH]; [now left|].
  cbn [lstrip]. destruct (isspace_char c) eqn:Hc; [exact IH|].
  right. eauto.
Qed.

Lemma rstrip_head c t :
  isspace_char c = false -> exists t', rstrip (String c t) = String c t'.
Proof.
  intros Hc. cbn [rstrip]. destruct (rstrip t); [rewrite Hc|]; eauto.
Qed.

Lemma lstrip_strip s : lstrip (strip s) = strip s.
Proof.
  unfold strip. destruct (lstrip_head s) as [->|(c & t & -> & Hc)]; [reflexivity|].
  destruct (rstrip_head c t Hc) as [t' ->]. now apply lstrip_first.
Qed.

Lemma rstrip_strip s : rstrip (strip s) = strip s.
Proof. unfold strip. apply rstrip_idempotent. Qed.

Lemma strip_idempotent s : strip (strip s) = strip s.
Proof.
  unfold strip at 1. rewrite lstrip_strip. apply rstrip_strip.
Qed.

Lemma lstrip_no_leading_space s c t : lstrip s = String c t -> isspace_char c = false.
Proof.
  destruct (lstrip_head s) as [->|(c' & t' & -> & Hc)]; [discriminate|].
  now intros [= <- <-].
Qed.

End StripFacts.

Section RecordFacts.

Lemma py_strip_returns v s : py_strip v = Return s -> exists s0, v = PStr s0 /\ s = PyStr.strip s0.
Proof. destruct v; try discriminate. intros [= <-]. eauto. Qed.

Lemma py_strip_again s : py_strip (PStr (PyStr.strip s)) = Return (PyStr.strip s).
Proof. cbn. now rewrite strip_idempotent. Qed.


End RecordFacts.

(** * What a valid result says about the configuration *)

Section ValidMeansWellFormed.

Import ValidationResult ConfigurationManager.

Lemma all_of_remove_char (q : ascii -> bool) x s :
  PyStr.all q (PyStr.remove_char x s) = true ->
  PyStr.all (fun c => q c || Ascii.eqb c x) s = true.
Proof.
  induction s as [|c s IH]; cbn [PyStr.remove_char PyStr.all]; [easy|].
  destruct (Ascii.eqb c x) eqn:E.
  - intros H. rewrite orb_true_r. cbn. auto.
  - cbn [PyStr.all]. rewrite andb_true_iff. intros [Hc Hs].
    rewrite Hc. cbn. auto.
Qed.

Lemma any_of_remove_char (p : ascii -> bool) x s :
  PyStr.any p (PyStr.remove_char x s) = true -> PyStr.any p s = true.
Proof.
  induction s as [|c s IH]; cbn [PyStr.remove_char PyStr.any]; [easy|].
  destruct (Ascii.eqb c x); cbn [PyStr.any].
  - intros H. rewrite (IH H). apply orb_true_r.
  - rewrite !orb_true_iff. intros [H|H]; auto.
Qed.

Lemma isalnum_any s : PyStr.isalnum s = true -> PyStr.any PyStr.isalnum_char s = true.
Proof.
  unfold PyStr.isalnum. destruct s as [|c s]; [discriminate|].
  cbn. rewrite andb_true_iff. intros [-> _]. reflexivity.
Qed.

Lemma isalnum_all s : PyStr.isalnum s = true -> PyStr.all PyStr.isalnum_char s = true.
Proof. unfold PyStr.isalnum. rewrite andb_true_iff. tauto. Qed.

Lemma region_check_sound s :
  PyStr.isalnum (PyStr.remove_char "_" (PyStr.remove_char "-" s)) = true ->
  well_formed_region s = true.
Proof.
  intros H. unfold well_formed_region. apply andb_true_iff. split.
  - apply isalnum_all, all_of_remove_char, all_of_remove_char in H.
    revert H. apply all_impl. intros c. cbv beta.
    now destruct (PyStr.isalnum_char c), (Ascii.eqb c "_"), (Ascii.eqb c "-").
  - apply isalnum_any, any_of_remove_char, any_of_remove_char in H. exact H.
Qed.

Lemma pool_check_sound s :
  PyStr.contains_char "_" s = true ->
  PyStr.isalnum (PyStr.remove_char "-" (PyStr.split_head "_" s)) = true ->
  well_formed_pool_id s = true.
Proof.
  intros Hc H. unfold well_formed_pool_id. rewrite Hc. cbn [andb].
  apply andb_true_iff. split.
  - now apply isalnum_all, all_of_remove_char in H.
  - now apply isalnum_any, any_of_remove_char in H.
Qed.

Lemma omap_nil_none {A B : Type} (g : A -> option B) xs :
  omap g xs = [] -> forall x, In x xs -> g x = None.
Proof.
  induction xs as [|y xs IH]; cbn [omap list_omap]; [easy|].
  fold (omap g xs). destruct (g y) eqn:E; [discriminate|].
  intros H x [<-|Hx]; auto.
Qed.

Lemma placeholder_free_of_no_error config :
  omap placeholder_choice config = [] -> placeholder_free config = true.
Proof.
  intros H. unfold placeholder_free. apply forallb_forall. intros [key v] Hin.
  pose proof (omap_nil_none _ _ H _ Hin) as Hc.
  destruct v as [| | |value]; try reflexivity.
  unfold placeholder_choice in Hc.
  now destruct (PyStr.list_in value placeholder_values).
Qed.

Lemma not_missing_present config key :
  missing_or_empty config key = false ->
  exists v, dict_get key config = Some v /\ truthy v = true /\ present config key = Some v.
Proof.
  unfold missing_or_empty, present. destruct (dict_get key config) as [v|]; [|discriminate].
  rewrite negb_false_iff. intros H. exists v. now rewrite H.
Qed.

Lemma validate_config_returns_safe config v :
  validate_config config = Return v -> strip_safe config = true.
Proof.
  intros H. destruct (strip_safe config) eqn:E; [reflexivity|].
  rewrite (validate_config_raises config E) in H. discriminate.
Qed.

Lemma record_all_fresh_valid es :
  is_valid (record_all fresh_result es) = true -> es = [].
Proof. rewrite is_valid_record_all. now destruct es. Qed.

Lemma valid_reports_nothing config v :
  validate_config config = Return v -> is_valid v = true ->
  v = fresh_result /\ reported_errors config = [].
Proof.
  intros Hv Hok.
  pose proof (validate_config_returns_safe _ _ Hv) as Hsafe.
  rewrite (validate_config_record config Hsafe) in Hv. injection Hv as <-.
  apply record_all_fresh_valid in Hok. now rewrite Hok.
Qed.

Lemma strippable_present config key v :
  strippable config key = true -> present config key = Some v ->
  exists s, v = PStr s.
Proof.
  unfold strippable. intros H Hp. rewrite Hp in H.
  destruct v; try discriminate. eauto.
Qed.

(** Everything a valid result implies, gathered once for the theorems
    below. *)
Lemma valid_config_facts config v :
  validate_config config = Return v -> is_valid v = true ->
  v = fresh_result
  /\ (forall key,
        In key (required_aws_params ++ required_cognito_params ++ required_gateway_params) ->
        missing_or_empty config key = false)
  /\ (exists a, present config "account_id" = Some a
                /\ PyStr.isdigit (PyStr.strip (py_str a)) = true
                /\ String.length (PyStr.strip (py_str a)) = 12)
  /\ (exists g, present config "region" = Some (PStr g)
                /\ well_formed_region (PyStr.strip g) = true)
  /\ (exists u, present config "endpoint_url" = Some (PStr u)
                /\ https_url (PyStr.strip u) = true)
  /\ (exists u, present config "credential_provider_endpoint_url" = Some (PStr u)
                /\ https_url (PyStr.strip u) = true)
  /\ (exists p, present config "user_pool_id" = Some (PStr p)
                /\ well_formed_pool_id (PyStr.strip p) = true)
  /\ placeholder_free config = true.
Proof.
  intros Hv Hok.
  pose proof (validate_config_returns_safe _ _ Hv) as Hsafe.
  destruct (strip_safe_keys config Hsafe) as (Sr & Su1 & Su2 & Sp).
  destruct (valid_reports_nothing _ _ Hv Hok) as [-> Hrep].
  unfold reported_errors in Hrep.
  repeat match type of Hrep with
         | _ ++ _ = [] => apply app_eq_nil in Hrep;
                          let H := fresh "E" in destruct Hrep as [H Hrep]
         end.
  rewrite check_required_aws_record, record_all_fresh_errors in E.
  rewrite check_required_cognito_record, record_all_fresh_errors in E0.
  rewrite check_required_gateway_record, record_all_fresh_errors in E1.
  rewrite check_placeholders_record, record_all_fresh_errors in Hrep.
  assert (Hreq : forall key,
             In key (required_aws_params ++ required_cognito_params
                       ++ required_gateway_params) ->
             missing_or_empty config key = false).
  { intros key Hin. rewrite !in_app_iff in Hin. destruct Hin as [Hin|[Hin|Hin]].
    - pose proof (omap_nil_none _ _ E _ Hin) as H. unfold required_aws_choice in H.
      now destruct (missing_or_empty config key).
    - pose proof (omap_nil_none _ _ E0 _ Hin) as H. unfold required_cognito_choice in H.
      now destruct (missing_or_empty config key).
    - pose proof (omap_nil_none _ _ E1 _ Hin) as H. unfold required_gateway_choice in H.
      now destruct (missing_or_empty config key). }
  split; [reflexivity|]. split; [exact Hreq|].
  split.
  { destruct (not_missing_present config "account_id") as (a & _ & _ & Hp).
    { apply Hreq. cbn. auto. }
    exists a. split; [exact Hp|].
    unfold check_account_id in E2. rewrite Hp in E2. cbv zeta in E2.
    destruct (PyStr.isdigit (PyStr.strip (py_str a))); [|discriminate E2].
    destruct (Nat.eqb_spec (String.length (PyStr.strip (py_str a))) 12);
      [auto|discriminate E2]. }
  split.
  { destruct (not_missing_present config "region") as (g0 & _ & _ & Hp).
    { apply Hreq. cbn. auto. }
    destruct (strippable_present _ _ _ Sr Hp) as [g ->].
    exists g. split; [exact Hp|].
    unfold check_region in E3. rewrite Hp in E3. cbn [py_strip mbind outcome_bind] in E3.
    destruct (PyStr.isalnum (PyStr.remove_char "_" (PyStr.remove_char "-" (PyStr.strip g))))
      eqn:Ha; [|discriminate E3].
    now apply region_check_sound. }
  destruct (not_missing_present config "endpoint_url") as (u0 & _ & _ & Hp1).
  { apply Hreq. cbn. auto 10. }
  destruct (strippable_present _ _ _ Su1 Hp1) as [u1 ->].
  destruct (not_missing_present config "credential_provider_endpoint_url")
    as (u0 & _ & _ & Hp2).
  { apply Hreq. cbn. auto 10. }
  destruct (strippable_present _ _ _ Su2 Hp2) as [u2 ->].
  unfold check_endpoint_urls in E4. cbn [for_each_m] in E4.
  rewrite Hp1, Hp2 in E4. cbn [py_strip mbind outcome_bind] in E4.
  unfold https_url.
  destruct (PyStr.startswith "https://" (PyStr.strip u1)) eqn:H1;
    destruct (PyStr.startswith "https://" (PyStr.strip u2)) eqn:H2;
    try discriminate E4.
  split; [eauto|]. split; [eauto|].
  split.
  { destruct (not_missing_present config "user_pool_id") as (p0 & _ & _ & Hp).
    { apply Hreq. cbn. auto 10. }
    destruct (strippable_present _ _ _ Sp Hp) as [p ->].
    exists p. split; [exact Hp|].
    unfold check_user_pool_id in E5. rewrite Hp in E5.
    cbn [py_strip mbind outcome_bind] in E5.
    destruct (PyStr.contains_char "_" (PyStr.strip p)) eqn:Hc; [|discriminate E5].
    destruct (PyStr.isalnum (PyStr.remove_char "-"
                (PyStr.split_head "_" (PyStr.strip p)))) eqn:Ha; [|discriminate E5].
    now apply pool_check_sound. }
  now apply placeholder_free_of_no_error.
Qed.

(** X7: a valid result is earned.  When [validate_config] returns a result
    with [is_valid = true], that result has no error and no warning, every
    required key holds a non-empty value, the account id (read with [str]
    and stripped) is twelve digit characters, the region, the two endpoint
    URLs and the user-pool id are strings whose stripped form is well
    formed, and no string value is a placeholder. *)
Theorem valid_result_means_well_formed (config : pydict) (v : ValidationResult.t)
    (Hv : validate_config config = Return v) (Hok : is_valid v = true) :
  v = fresh_result
  /\ (forall key,
        In key (required_aws_params ++ required_cognito_params ++ required_gateway_params) ->
        exists value, dict_get key config = Some value /\ truthy value = true)
  /\ (exists a, dict_get "account_id" config = Some a
                /\ String.length (PyStr.strip (py_str a)) = 12
                /\ PyStr.all PyStr.isdigit_char (PyStr.strip (py_str a)) = true)
  /\ (exists g, dict_get "region" config = Some (PStr g)
                /\ well_formed_region (PyStr.strip g) = true)
  /\ (exists u, dict_get "endpoint_url" config = Some (PStr u)
                /\ https_url (PyStr.strip u) = true)
  /\ (exists u, dict_get "credential_provider_endpoint_url" config = Some (PStr u)
                /\ https_url (PyStr.strip u) = true)
  /\ (exists p, dict_get "user_pool_id" config = Some (PStr p)
                /\ well_formed_pool_id (PyStr.strip p) = true)
  /\ placeholder_free config = true.
Proof.
  assert (Hget : forall key x, present config key = Some x -> dict_get key config = Some x).
  { intros key x. unfold present. destruct (dict_get key config) as [y|]; [|discriminate].
    destruct (truthy y); [congruence|discriminate]. }
  destruct (valid_config_facts config v Hv Hok)
    as (E & Hreq & (a & Ha & Hd & Hl) & (g & Hg & Hwg) & (u1 & Hu1 & Hw1)
        & (u2 & Hu2 & Hw2) & (p & Hp & Hwp) & Hph).
  split; [exact E|].
  split.
  { intros key Hin. destruct (not_missing_present config key (Hreq key Hin))
      as (x & Hx & Ht & _). eauto. }
  split.
  { exists a. split; [auto|]. split; [exact Hl|].
    unfold PyStr.isdigit in Hd. apply andb_true_iff in Hd. tauto. }
  repeat split; eauto.
Qed.

Lemma valid_result_means_well_formed_witness :
  validate_config sample_config_integer_account = Return fresh_result
  /\ is_valid fresh_result = true
  /\ exists a, dict_get "account_id" sample_config_integer_account = Some a
       /\ String.length (PyStr.strip (py_str a)) = 12
       /\ PyStr.all PyStr.isdigit_char (PyStr.strip (py_str a)) = true.
Proof.
  assert (Hv : validate_config sample_config_integer_account = Return fresh_result)
    by (vm_compute; reflexivity).
  split; [exact Hv|]. split; [reflexivity|].
  exact (proj1 (proj2 (proj2
    (valid_result_means_well_formed sample_config_integer_account fresh_result
       Hv eq_refl)))).
Defined.

End ValidMeansWellFormed.

(** * Properties of the typed accessors and of saving *)

Section AccessorFacts.

Import ValidationResult ConfigurationManager.

Context (yaml_safe_load : string -> option document) (yaml_dump : pydict -> string).

Lemma load_config_result self config_path fs config :
  load_config yaml_safe_load self config_path fs = Return config ->
  exists d, config = strip_identifiers d.
Proof.
  unfold load_config. cbv zeta.
  destruct (fs !! target_path self config_path) as [text|]; [|discriminate].
  destruct (yaml_safe_load text) as [[|[|item items]]|]; try discriminate;
    intros [= <-]; [exists []|exists []|eexists]; reflexivity.
Qed.

Lemma cleaned_identifier_stripped key d s :
  PyStr.list_in key identifier_keys = true ->
  dict_get key (strip_identifiers d) = Some (PStr s) -> PyStr.strip s = s.
Proof.
  intros Hk. rewrite strip_identifiers_get. unfold cleaned. rewrite Hk.
  destruct (dict_get key d) as [[| | |s0]|]; try discriminate.
  intros [= <-]. apply strip_idempotent.
Qed.

Lemma dict_set_same k v d : dict_get k d = Some v -> dict_set k v d = d.
Proof.
  induction d as [|[k' v'] d IH]; cbn [dict_get dict_set]; [discriminate|].
  destruct (String.eqb k k'); [now intros [= ->]|].
  intros H. now rewrite IH.
Qed.

Lemma strip_key_fixed key d :
  (forall s, dict_get key d = Some (PStr s) -> PyStr.strip s = s) ->
  match dict_get key d with
  | Some (PStr s) => dict_set key (PStr (PyStr.strip s)) d
  | _ => d
  end = d.
Proof.
  intros H. destruct (dict_get key d) as [[| | |s]|] eqn:E; try reflexivity.
  rewrite (H s eq_refl). now apply dict_set_same.
Qed.

Lemma strip_identifiers_fixed d :
  (forall key s, PyStr.list_in key identifier_keys = true ->
                 dict_get key d = Some (PStr s) -> PyStr.strip s = s) ->
  strip_identifiers d = d.
Proof.
  intros H. unfold strip_identifiers, for_each, identifier_keys. cbn [fold_left].
  rewrite (strip_key_fixed "account_id" d) by (intros s; now apply H).
  rewrite (strip_key_fixed "role_name" d) by (intros s; now apply H).
  rewrite (strip_key_fixed "user_pool_id" d) by (intros s; now apply H).
  rewrite (strip_key_fixed "client_id" d) by (intros s; now apply H).
  rewrite (strip_key_fixed "s3_bucket" d) by (intros s; now apply H).
  apply strip_key_fixed. intros s. now apply H.
Qed.

Lemma strip_identifiers_idempotent d :
  strip_identifiers (strip_identifiers d) = strip_identifiers d.
Proof.
  apply strip_identifiers_fixed. intros key s. apply cleaned_identifier_stripped.
Qed.



(** X10: how [get_aws_config] fails.  It never raises [KeyError]; it raises
    [ValueError] exactly when the loaded configuration fails validation,
    with a message made of the errors found; and an exception of the loader
    escapes unchanged. *)
Theorem get_aws_config_failures (self : ConfigurationManager.t) (fs : filesystem) :
  (forall key, get_aws_config yaml_safe_load self fs <> Failure (KeyError key))
  /\ (forall message,
        get_aws_config yaml_safe_load self fs = Failure (ValueError message)
        <-> exists config v,
              load_config yaml_safe_load self None fs = Return config
              /\ validate_config config = Return v
              /\ is_valid v = false
              /\ message = invalid_configuration_message (errors v))
  /\ (forall e,
        load_config yaml_safe_load self None fs = Raise e ->
        get_aws_config yaml_safe_load self fs = Failure (Escaped e)).
Proof.
  unfold get_aws_config.
  destruct (load_config yaml_safe_load self None fs) as [config|e] eqn:Hload;
    cbn [escaping mbind answer_bind].
  2:{ split; [discriminate|]. split; [|now intros e' [= <-]].
      intros message. split; [discriminate|]. intros (c & v & H & _). discriminate H. }
  destruct (validate_config config) as [v|e] eqn:Hv; cbn [escaping mbind answer_bind].
  2:{ split; [discriminate|]. split; [|discriminate].
      intros message. split; [discriminate|].
      intros (c & v & [= <-] & H & _). rewrite Hv in H. discriminate H. }
  destruct (is_valid v) eqn:Hok; cbn [negb].
  2:{ split; [discriminate|]. split; [|discriminate].
      intros message. split.
      - intros [= <-]. exists config, v. auto.
      - intros (c & v' & [= <-] & H & _ & ->). rewrite Hv in H. now injection H as <-. }
  destruct (valid_config_facts config v Hv Hok)
    as (_ & Hreq & _).
  assert (Hitem : forall key,
             In key required_aws_params ->
             exists x, dict_item key config = Answer x).
  { intros key Hin. destruct (not_missing_present config key) as (x & Hx & _).
    { apply Hreq. apply in_or_app. now left. }
    exists x. unfold dict_item. now rewrite Hx. }
  destruct (Hitem "account_id") as [a ->]; [cbn; auto|].
  destruct (Hitem "region") as [g ->]; [cbn; auto|].
  destruct (Hitem "role_name") as [r ->]; [cbn; auto|].
  destruct (Hitem "endpoint_url") as [u1 ->]; [cbn; auto 10|].
  destruct (Hitem "credential_provider_endpoint_url") as [u2 ->]; [cbn; auto 10|].
  cbn [mbind answer_bind].
  destruct (AWSConfig.init a g r u1 u2) as [cfg|e]; cbn [escaping].
  - split; [discriminate|]. split; [|discriminate].
    intros message. split; [discriminate|].
    intros (c & v' & [= <-] & H & Hf & _). rewrite Hv in H. injection H as <-. congruence.
  - split; [discriminate|]. split; [|discriminate].
    intros message. split; [discriminate|].
    intros (c & v' & [= <-] & H & Hf & _). rewrite Hv in H. injection H as <-. congruence.
Qed.



(** X13: saving and loading round-trip up to the clean-up.  When the YAML
    writer and loader agree on a mapping, loading what was saved returns
    that mapping with its identifier strings stripped; a mapping that came
    out of [load_config] comes back unchanged, because the clean-up is
    idempotent; and saving touches no other file. *)
Theorem save_then_load (self : ConfigurationManager.t) (config_path : option string)
    (fs : filesystem) (config : pydict)
    (Hyaml : yaml_safe_load (yaml_dump config) = Some (DDict config)) :
  load_config yaml_safe_load self config_path
    (save_config yaml_dump self config config_path fs)
  = Return (strip_identifiers config)
  /\ strip_identifiers (strip_identifiers config) = strip_identifiers config
  /\ (forall fs0 path0,
        load_config yaml_safe_load self path0 fs0 = Return config ->
        load_config yaml_safe_load self config_path
          (save_config yaml_dump self config config_path fs)
        = Return config)
  /\ (forall path, path <> target_path self config_path ->
                   save_config yaml_dump self config config_path fs !! path = fs !! path).
Proof.
  assert (H1 : load_config yaml_safe_load self config_path
                 (save_config yaml_dump self config config_path fs)
               = Return (strip_identifiers config)).
  { apply (load_config_mapping yaml_safe_load self config_path _ (yaml_dump config)).
    - unfold save_config. cbv zeta. apply lookup_insert_eq.
    - exact Hyaml. }
  split; [exact H1|]. split; [apply strip_identifiers_idempotent|].
  split.
  - intros fs0 path0 Hl. rewrite H1.
    destruct (load_config_result self path0 fs0 config Hl) as [d ->].
    now rewrite strip_identifiers_idempotent.
  - intros path Hp. unfold save_config. cbv zeta. now apply lookup_insert_ne.
Qed.

(** X14: an update can be read back.  After [update_config_parameter],
    when the YAML writer and loader agree on the saved mapping, loading
    returns the new value under the key, stripped if the key is an
    identifier key, and under every other key the value that loading
    returned before the update. *)
Theorem update_then_load (self : ConfigurationManager.t) (key value : string)
    (fs : filesystem) (config : pydict)
    (Hload : load_or_empty yaml_safe_load self fs = Return config)
    (Hyaml : yaml_safe_load (yaml_dump (dict_set key (PStr value) config))
             = Some (DDict (dict_set key (PStr value) config))) :
  exists fs' config',
    update_config_parameter yaml_safe_load yaml_dump self key value fs = Return fs'
    /\ load_config yaml_safe_load self None fs' = Return config'
    /\ dict_get key config' = Some (cleaned key (PStr value))
    /\ (forall k, k <> key -> dict_get k config' = dict_get k config).
Proof.
  exists (<[config_file self := yaml_dump (dict_set key (PStr value) config)]> fs),
         (strip_identifiers (dict_set key (PStr value) config)).
  split; [now apply update_config_parameter_saves|].
  split.
  { apply (load_config_mapping yaml_safe_load self None _
             (yaml_dump (dict_set key (PStr value) config)));
      [apply lookup_insert_eq|exact Hyaml]. }
  split.
  { now rewrite strip_identifiers_get, dict_get_set_eq. }
  intros k Hk. rewrite strip_identifiers_get, dict_get_set_ne by assumption.
  assert (Hc : exists d, config = strip_identifiers d).
  { unfold load_or_empty in Hload.
    destruct (load_config yaml_safe_load self None fs) as [c|e] eqn:E.
    - injection Hload as ->. eapply load_config_result; eassumption.
    - destruct e; try discriminate Hload. injection Hload as <-. now exists []. }
  destruct Hc as [d ->].
  rewrite <- strip_identifiers_get. now rewrite strip_identifiers_idempotent.
Qed.

End AccessorFacts.

Section ConcreteAccessors.

Import ValidationResult ConfigurationManager.




Lemma save_then_load_witness :
  let self := init "." in
  let config := [("role_name", PStr "SRE-Agent-Gateway-Role ")] in
  reads_as (render_lines config) config (render_lines config) = Some (DDict config)
  /\ load_config (reads_as (render_lines config) config) self None
       (save_config render_lines self config None ∅)
     = Return [("role_name", PStr "SRE-Agent-Gateway-Role")].
Proof.
  intros self config.
  assert (Hy : reads_as (render_lines config) config (render_lines config)
               = Some (DDict config)) by (vm_compute; reflexivity).
  split; [exact Hy|].
  exact (proj1 (save_then_load (reads_as (render_lines config) config) render_lines
                  self None ∅ config Hy)).
Defined.

Lemma update_then_load_witness :
  let self := init "." in
  let saved := [("account_id", PStr " 123456789012 ")] in
  let loader := reads_as (render_lines saved) saved in
  load_or_empty loader self ∅ = Return []
  /\ loader (render_lines (dict_set "account_id" (PStr " 123456789012 ") []))
     = Some (DDict (dict_set "account_id" (PStr " 123456789012 ") []))
  /\ exists fs' config',
       update_config_parameter loader render_lines self "account_id" " 123456789012 " ∅
       = Return fs'
       /\ load_config loader self None fs' = Return config'
       /\ dict_get "account_id" config' = Some (PStr "123456789012").
Proof.
  intros self saved loader.
  assert (Hl : load_or_empty loader self ∅ = Return []) by (vm_compute; reflexivity).
  assert (Hy : loader (render_lines (dict_set "account_id" (PStr " 123456789012 ") []))
               = Some (DDict (dict_set "account_id" (PStr " 123456789012 ") [])))
    by (vm_compute; reflexivity).
  split; [exact Hl|]. split; [exact Hy|].
  destruct (update_then_load loader render_lines self "account_id" " 123456789012 "
              ∅ [] Hl Hy) as (fs' & config' & Hu & Hc & Hk & _).
  exists fs', config'. repeat split; assumption.
Defined.

End ConcreteAccessors.

(** * Properties of the environment file *)

Section EnvironmentFacts.

Import ValidationResult ConfigurationManager.

Lemma for_each_invariant {A S : Type} (P : S -> Prop) (body : S -> A -> S) xs :
  (forall s x, P s -> P (body s x)) -> forall s, P s -> P (for_each xs body s).
Proof.
  intros Hbody. unfold for_each.
  induction xs as [|x xs IH]; intros s Hs; cbn [fold_left]; auto.
Qed.

Lemma split_once_no_separator x s k v :
  PyStr.split_once x s = Some (k, v) -> PyStr.contains_char x k = false.
Proof.
  unfold PyStr.contains_char. revert k v.
  induction s as [|c s IH]; intros k v; cbn [PyStr.split_once]; [discriminate|].
  destruct (Ascii.eqb c x) eqn:E.
  - now intros [= <- <-].
  - destruct (PyStr.split_once x s) as [[k' v']|]; [|discriminate].
    intros [= <- <-]. cbn [PyStr.any]. rewrite Ascii.eqb_sym, E. cbn.
    eapply IH. reflexivity.
Qed.

Lemma any_lstrip p s : PyStr.any p (PyStr.lstrip s) = true -> PyStr.any p s = true.
Proof.
  induction s as [|c s IH]; cbn [PyStr.lstrip]; [easy|].
  destruct (PyStr.isspace_char c); [|easy].
  intros H. cbn [PyStr.any]. rewrite (IH H). apply orb_true_r.
Qed.

Lemma any_rstrip p s : PyStr.any p (PyStr.rstrip s) = true -> PyStr.any p s = true.
Proof.
  induction s as [|c s IH]; cbn [PyStr.rstrip]; [easy|].
  destruct (PyStr.rstrip s) as [|d r].
  - destruct (PyStr.isspace_char c); [discriminate|].
    cbn [PyStr.any]. rewrite orb_false_r. intros ->. reflexivity.
  - cbn [PyStr.any] in *. rewrite !orb_true_iff. intros [H|H]; [now left|right].
    apply IH. now apply orb_true_iff.
Qed.

Lemma strip_no_separator x s :
  PyStr.contains_char x s = false -> PyStr.contains_char x (PyStr.strip s) = false.
Proof.
  unfold PyStr.contains_char, PyStr.strip. intros H.
  destruct (PyStr.any (Ascii.eqb x) (PyStr.rstrip (PyStr.lstrip s))) eqn:E; [|reflexivity].
  apply any_rstrip, any_lstrip in E. congruence.
Qed.

(** X15: what [load_environment_variables] returns is clean.  Every
    variable name and every value of the result is stripped of surrounding
    blanks, and no name contains the [=] sign, since a line is split at its
    first one; a missing file gives no variable at all. *)
Theorem environment_variables_are_clean (self : ConfigurationManager.t)
    (fs : filesystem) :
  (forall var value,
     load_environment_variables self fs !! var = Some value ->
     stripped var /\ stripped value /\ PyStr.contains_char "=" var = false)
  /\ (fs !! env_file self = None -> load_environment_variables self fs = ∅).
Proof.
  unfold load_environment_variables. split.
  - destruct (fs !! env_file self) as [text|]; [|intros var value H; now rewrite lookup_empty in H].
    apply (for_each_invariant
             (fun m : gmap string string =>
                forall var value, m !! var = Some value ->
                  stripped var /\ stripped value /\ PyStr.contains_char "=" var = false)).
    + intros m line Hm. cbv zeta.
      destruct (negb (PyStr.is_empty (PyStr.strip line))
                && negb (PyStr.startswith "#" (PyStr.strip line))
                && PyStr.contains_char "=" (PyStr.strip line)); [|exact Hm].
      destruct (PyStr.split_once "=" (PyStr.strip line)) as [[k v]|] eqn:E; [|exact Hm].
      intros var value. rewrite lookup_insert.
      destruct (decide (PyStr.strip k = var)) as [<-|Hne]; [|apply Hm].
      intros [= <-]. unfold stripped. rewrite !strip_idempotent.
      split; [reflexivity|]. split; [reflexivity|].
      apply strip_no_separator. eapply split_once_no_separator; eassumption.
    + intros var value H. now rewrite lookup_empty in H.
  - now intros ->.
Qed.

Lemma environment_errors self environ required_vars fs :
  errors (validate_environment_variables self environ required_vars fs)
  = omap (env_choice (dict_update environ (load_environment_variables self fs)))
      required_vars.
Proof. now rewrite validate_environment_variables_record, record_all_fresh_errors. Qed.

Lemma env_choice_missing env_vars var :
  env_choice env_vars var
  = if env_missing env_vars var then
      Some (ValidationError.mk var
              ("Required environment variable '" +:+ var +:+ "' is not set")
              (Some ("Set " +:+ var +:+ " in your .env file or environment")) None)
    else None.
Proof. reflexivity. Qed.

(** X16: [validate_environment_variables] reports, in the order asked and
    once per occurrence, exactly the required variables that the merged
    environment lacks or holds empty; the result is valid exactly when every
    required variable has a non-empty value there; and without an
    environment file the merged environment is the process environment. *)
Theorem environment_validation_reports_missing (self : ConfigurationManager.t)
    (environ : gmap string string) (required_vars : list string) (fs : filesystem) :
  let env_vars := dict_update environ (load_environment_variables self fs) in
  let r := validate_environment_variables self environ required_vars fs in
  map ValidationError.field (errors r) = List.filter (env_missing env_vars) required_vars
  /\ (is_valid r = true
      <-> forall var, In var required_vars ->
            exists value, env_vars !! var = Some value /\ value <> "")
  /\ (fs !! env_file self = None -> env_vars = environ).
Proof.
  cbv zeta. split; [|split].
  - rewrite environment_errors.
    induction required_vars as [|var vars IH]; [reflexivity|].
    cbn [omap list_omap List.filter]. rewrite env_choice_missing.
    destruct (env_missing _ var); cbn [map]; [f_equal|]; exact IH.
  - rewrite validate_environment_variables_record, is_valid_record_all.
    set (env_vars := dict_update environ (load_environment_variables self fs)).
    split.
    + intros H var Hin.
      assert (Hn : omap (env_choice env_vars) required_vars = [])
        by (destruct (omap (env_choice env_vars) required_vars); [reflexivity|discriminate H]).
      pose proof (omap_nil_none _ _ Hn var Hin) as Hc.
      rewrite env_choice_missing in Hc. unfold env_missing in Hc.
      destruct (env_vars !! var) as [value|]; [|discriminate Hc].
      exists value. split; [reflexivity|]. intros ->. discriminate Hc.
    + intros H.
      assert (Hn : omap (env_choice env_vars) required_vars = []).
      { clear -H. induction required_vars as [|var vars IH]; [reflexivity|].
        cbn [omap list_omap]. rewrite env_choice_missing.
        destruct (H var) as (value & Hv & Hne); [now left|].
        unfold env_missing. rewrite Hv.
        destruct value; [congruence|]. cbn. apply IH.
        intros v Hin. apply H. now right. }
      now rewrite Hn.
  - intros Hf. unfold dict_update, load_environment_variables. rewrite Hf.
    apply map_eq. intros k. now rewrite lookup_union, lookup_empty, (left_id None _).
Qed.

End EnvironmentFacts.

(** * What [validate_config] reports *)

Section ValidateConfigReports.

Import ValidationResult ConfigurationManager.

Lemma In_omap_some {A B : Type} (g : A -> option B) xs x y :
  In x xs -> g x = Some y -> In y (omap g xs).
Proof.
  intros Hin Hg. apply list_elem_of_In, list_elem_of_omap. exists x.
  split; [now apply list_elem_of_In|exact Hg].
Qed.

Lemma validate_config_returns config :
  strip_safe config = true ->
  exists r, validate_config config = Return r
            /\ errors r = reported_errors config
            /\ (reported_errors config <> [] -> is_valid r = false).
Proof.
  intros Hsafe. exists (record_all fresh_result (reported_errors config)).
  split; [now apply validate_config_record|].
  split; [apply record_all_fresh_errors|].
  rewrite is_valid_record_all. now destruct (reported_errors config).
Qed.

Lemma reported_nonempty config e : In e (reported_errors config) -> reported_errors config <> [].
Proof. intros H E. rewrite E in H. exact H. Qed.

(** X17: a required key that is missing or empty is always reported.  For
    each of the nine required keys, a mapping that lacks it or holds an
    empty value under it validates to an invalid result with an error
    naming that key. *)
Theorem missing_required_key_is_reported (config : pydict) (key : string)
    (Hsafe : strip_safe config = true)
    (Hkey : In key (required_aws_params ++ required_cognito_params
                      ++ required_gateway_params))
    (Hmissing : missing_or_empty config key = true) :
  exists r, validate_config config = Return r
            /\ is_valid r = false
            /\ reports (errors r) key.
Proof.
  destruct (validate_config_returns config Hsafe) as (r & Hr & He & Hv).
  assert (Hin : exists e, In e (reported_errors config) /\ ValidationError.field e = key).
  { unfold reported_errors.
    rewrite check_required_aws_record, check_required_cognito_record,
      check_required_gateway_record, !record_all_fresh_errors.
    rewrite !in_app_iff in Hkey. destruct Hkey as [Hk|[Hk|Hk]].
    - eexists. split.
      + apply in_or_app. left. eapply In_omap_some; [exact Hk|].
        unfold required_aws_choice. rewrite Hmissing. reflexivity.
      + reflexivity.
    - eexists. split.
      + apply in_or_app. right. apply in_or_app. left.
        eapply In_omap_some; [exact Hk|].
        unfold required_cognito_choice. rewrite Hmissing. reflexivity.
      + reflexivity.
    - eexists. split.
      + apply in_or_app. right. apply in_or_app. right. apply in_or_app. left.
        eapply In_omap_some; [exact Hk|].
        unfold required_gateway_choice. rewrite Hmissing. reflexivity.
      + reflexivity. }
  destruct Hin as (e & Hin & Hf).
  exists r. split; [exact Hr|]. split.
  - apply Hv. eapply reported_nonempty; eassumption.
  - exists e. rewrite He. auto.
Qed.

Lemma missing_required_key_is_reported_witness :
  let config := [("account_id", PStr "123456789012"); ("gateway_name", PStr "")] in
  strip_safe config = true
  /\ missing_or_empty config "gateway_name" = true
  /\ exists r, validate_config config = Return r
       /\ is_valid r = false
       /\ reports (errors r) "gateway_name".
Proof.
  intros config.
  assert (Hs : strip_safe config = true) by reflexivity.
  assert (Hm : missing_or_empty config "gateway_name" = true) by reflexivity.
  split; [exact Hs|]. split; [exact Hm|].
  refine (missing_required_key_is_reported config "gateway_name" Hs _ Hm).
  cbn. auto 10.
Defined.





End ValidateConfigReports.

(** * Properties of the validation script *)

Section ScriptFacts.

Import ValidateSetup.

Lemma split_from_nil cur s :
  PyText.split_from cur s = [] ->
  PyStr.is_empty cur = true /\ PyStr.all PyStr.isspace_char s = true.
Proof.
  revert cur. induction s as [|c s IH]; intros cur; cbn [PyText.split_from PyStr.all].
  - destruct (PyStr.is_empty cur); [auto|discriminate].
  - destruct (PyStr.isspace_char c).
    + destruct (PyStr.is_empty cur); [|discriminate].
      intros H. destruct (IH _ H) as [_ Hs]. auto.
    + intros H. destruct (IH _ H) as [Hc _]. now destruct cur.
Qed.

Lemma all_space_lstrip s :
  PyStr.all PyStr.isspace_char s = true -> PyStr.lstrip s = "".
Proof.
  induction s as [|c s IH]; cbn [PyStr.all PyStr.lstrip]; [easy|].
  rewrite andb_true_iff. intros [-> Hs]. auto.
Qed.

Lemma split_strip_nil s : PyText.split (PyStr.strip s) = [] <-> PyStr.strip s = "".
Proof.
  split.
  - intros H. apply split_from_nil in H. destruct H as [_ H].
    apply all_space_lstrip in H. now rewrite lstrip_strip in H.
  - now intros ->.
Qed.

Lemma version_accepted_spec major minor :
  version_accepted major minor
  = at_least_3_12 major minor && negb ((4 <=? major)%Z && (minor <? 12)%Z).
Proof.
  unfold version_accepted, at_least_3_12.
  destruct (Z.leb_spec 3 major), (Z.leb_spec 12 minor), (Z.ltb_spec 3 major),
    (Z.eqb_spec major 3), (Z.leb_spec 4 major), (Z.ltb_spec minor 12);
    cbn; try reflexivity; lia.
Qed.

Lemma run_command_returns subprocess_run cmd r :
  run_command subprocess_run cmd = Returns r ->
  forall class, subprocess_run cmd <> OtherException class.
Proof.
  unfold run_command. intros H class E. rewrite E in H. discriminate H.
Qed.

(** What [check_prerequisites] does once both commands have been run. *)
Lemma check_prerequisites_after major minor micro subprocess_run aws uv :
  run_command subprocess_run ["aws"; "--version"] = Returns aws ->
  run_command subprocess_run ["uv"; "--version"] = Returns uv ->
  check_prerequisites (major, minor, micro) subprocess_run
  = if fst aws then
      match PyText.split (snd aws) with
      | [] => Raises IndexError
      | _ :: _ => Returns (version_accepted major minor && fst aws && fst uv)
      end
    else Returns (version_accepted major minor && fst aws && fst uv).
Proof.
  intros Ha Hu. unfold check_prerequisites. rewrite Ha, Hu.
  fold (version_accepted major minor).
  destruct aws as [s out], uv as [s2 out2]. cbn [fst snd].
  destruct s; [destruct (PyText.split out)|];
    destruct (version_accepted major minor), s2; reflexivity.
Qed.

(** X20: [check_prerequisites] raises [IndexError] exactly when
    [aws --version] exits with status 0 and prints nothing but blanks; it
    lets through an exception that [subprocess.run] raises and [run_command]
    does not catch, from the first of the two commands that raises one; in
    every other case it returns the conjunction of the version test and of
    the success of the two commands.  The version test refuses every
    version whose minor number is below 12, so it differs from "at least
    3.12" on exactly the versions with major 4 or more and minor below 12. *)
Theorem check_prerequisites_outcomes (major minor micro : Z)
    (subprocess_run : list string -> process) :
  (check_prerequisites (major, minor, micro) subprocess_run = Raises IndexError
   <-> exists stdout,
         subprocess_run ["aws"; "--version"] = Exited 0 stdout
         /\ PyStr.strip stdout = "")
  /\ check_prerequisites (major, minor, micro) subprocess_run <> Raises AttributeError
  /\ (forall class,
        check_prerequisites (major, minor, micro) subprocess_run = Raises (Uncaught class)
        <-> subprocess_run ["aws"; "--version"] = OtherException class
            \/ ((forall c, subprocess_run ["aws"; "--version"] <> OtherException c)
                /\ (forall stdout, subprocess_run ["aws"; "--version"] = Exited 0 stdout ->
                                   PyStr.strip stdout <> "")
                /\ subprocess_run ["uv"; "--version"] = OtherException class))
  /\ (forall aws uv,
        run_command subprocess_run ["aws"; "--version"] = Returns aws ->
        run_command subprocess_run ["uv"; "--version"] = Returns uv ->
        (forall stdout, subprocess_run ["aws"; "--version"] = Exited 0 stdout ->
                        PyStr.strip stdout <> "") ->
        check_prerequisites (major, minor, micro) subprocess_run
        = Returns (version_accepted major minor && fst aws && fst uv))
  /\ (forall all_good,
        check_prerequisites (major, minor, micro) subprocess_run = Returns all_good ->
        exists aws uv,
          run_command subprocess_run ["aws"; "--version"] = Returns aws
          /\ run_command subprocess_run ["uv"; "--version"] = Returns uv
          /\ all_good = version_accepted major minor && fst aws && fst uv)
  /\ version_accepted major minor
     = at_least_3_12 major minor && negb ((4 <=? major)%Z && (minor <? 12)%Z).
Proof.
  assert (Hblank : forall rc out,
            subprocess_run ["aws"; "--version"] = Exited rc out ->
            ((rc =? 0)%Z = true /\ PyText.split (PyStr.strip out) = []
             <-> exists stdout, subprocess_run ["aws"; "--version"] = Exited 0 stdout
                                /\ PyStr.strip stdout = "")).
  { intros rc out E. split.
    - intros [Hrc Hs]. apply Z.eqb_eq in Hrc. subst rc. exists out.
      split; [exact E|]. now apply split_strip_nil.
    - intros (stdout & E' & Hs). rewrite E in E'. injection E' as -> ->.
      split; [reflexivity|]. now apply split_strip_nil. }
  split; [|split; [|split; [|split; [|split; [|apply version_accepted_spec]]]]].
  - unfold check_prerequisites, run_command. fold (version_accepted major minor).
    destruct (subprocess_run ["aws"; "--version"]) as [rc out|m|m|c] eqn:E.
    + rewrite <- (Hblank rc out eq_refl).
      destruct (rc =? 0)%Z; [destruct (PyText.split (PyStr.strip out))|];
        try (split; [intros _; auto|reflexivity]);
        destruct (subprocess_run ["uv"; "--version"]);
        (split; [discriminate|intros [H1 H2]; discriminate]).
    + destruct (subprocess_run ["uv"; "--version"]);
        (split; [discriminate|intros (s & H & _); discriminate H]).
    + destruct (subprocess_run ["uv"; "--version"]);
        (split; [discriminate|intros (s & H & _); discriminate H]).
    + split; [discriminate|intros (s & H & _); discriminate H].
  - unfold check_prerequisites, run_command.
    destruct (subprocess_run ["aws"; "--version"]) as [rc out|m|m|c];
      [destruct (rc =? 0)%Z; [destruct (PyText.split (PyStr.strip out))|]| | |];
      try discriminate;
      destruct (subprocess_run ["uv"; "--version"]); discriminate.
  - intros class. unfold check_prerequisites, run_command.
    fold (version_accepted major minor).
    destruct (subprocess_run ["aws"; "--version"]) as [rc out|m|m|c] eqn:E.
    + pose proof (Hblank rc out eq_refl) as Hb.
      destruct (rc =? 0)%Z eqn:Hrc;
        [destruct (PyText.split (PyStr.strip out)) eqn:Hs|].
      * split; [discriminate|]. intros [H|(_ & Hn & _)]; [discriminate H|].
        apply Z.eqb_eq in Hrc. subst rc. exfalso. apply (Hn out eq_refl).
        now apply split_strip_nil.
      * destruct (subprocess_run ["uv"; "--version"]) as [rc2 out2|m2|m2|c2];
          (split; [intros H; try discriminate H; injection H as ->; right;
                   (split; [discriminate|split; [|reflexivity]]);
                   intros stdout [= -> ->] Hs';
                   apply split_strip_nil in Hs'; congruence
                  |intros [H|(_ & _ & H)]; [discriminate H|];
                   try discriminate H; now injection H as ->]).
      * destruct (subprocess_run ["uv"; "--version"]) as [rc2 out2|m2|m2|c2];
          (split; [intros H; try discriminate H; injection H as ->; right;
                   (split; [discriminate|split; [|reflexivity]]);
                   intros stdout [= -> ->]; discriminate Hrc
                  |intros [H|(_ & _ & H)]; [discriminate H|];
                   try discriminate H; now injection H as ->]).
    + destruct (subprocess_run ["uv"; "--version"]) as [rc2 out2|m2|m2|c2];
        (split; [intros H; try discriminate H; injection H as ->; right;
                 (split; [discriminate|split; [discriminate|reflexivity]])
                |intros [H|(_ & _ & H)]; [discriminate H|];
                 try discriminate H; now injection H as ->]).
    + destruct (subprocess_run ["uv"; "--version"]) as [rc2 out2|m2|m2|c2];
        (split; [intros H; try discriminate H; injection H as ->; right;
                 (split; [discriminate|split; [discriminate|reflexivity]])
                |intros [H|(_ & _ & H)]; [discriminate H|];
                 try discriminate H; now injection H as ->]).
    + split.
      * intros [= ->]. now left.
      * intros [[= ->]|(Hn & _)]; [reflexivity|]. exfalso. now apply (Hn c).
  - intros aws uv Ha Hu Hnb.
    rewrite (check_prerequisites_after major minor micro subprocess_run aws uv Ha Hu).
    destruct aws as [s out]. cbn [fst snd]. destruct s; [|reflexivity].
    destruct (PyText.split out) eqn:Hs; [|reflexivity]. exfalso.
    unfold run_command in Ha.
    destruct (subprocess_run ["aws"; "--version"]) as [rc o|m|m|c] eqn:E;
      try discriminate Ha.
    injection Ha as Hrc <-. apply Z.eqb_eq in Hrc. subst rc.
    apply (Hnb o eq_refl). now apply split_strip_nil.
  - intros all_good H.
    destruct (run_command subprocess_run ["aws"; "--version"]) as [aws|e] eqn:Ha.
    2:{ unfold check_prerequisites in H. rewrite Ha in H. discriminate H. }
    destruct (run_command subprocess_run ["uv"; "--version"]) as [uv|e] eqn:Hu.
    2:{ unfold check_prerequisites in H. rewrite Ha, Hu in H.
        destruct aws as [[|] out]; [destruct (PyText.split out)|]; discriminate H. }
    rewrite (check_prerequisites_after major minor micro subprocess_run aws uv Ha Hu) in H.
    exists aws, uv. split; [reflexivity|]. split; [reflexivity|].
    destruct (fst aws); [destruct (PyText.split (snd aws)); [discriminate H|]|];
      now injection H as <-.
Qed.

Lemma check_env_file_and fs all_good :
  check_env_file fs all_good = all_good && check_env_file fs true.
Proof.
  unfold check_env_file. destruct (fs !! "gateway/.env") as [text|];
    [destruct (missing_vars _ _)|]; now destruct all_good.
Qed.

(** X21: the outcomes of [check_configuration].  It raises
    [AttributeError], and nothing else, exactly when [config.yaml] is there
    and holds a document that is not a mapping (an empty document, a list, a
    scalar), which it then tries to iterate with [items]; it returns false
    when the file is missing or is not YAML; on a mapping it returns true
    exactly when the placeholder scan finds nothing and the environment file
    passes; and a missing environment file passes. *)
Theorem check_configuration_outcomes (yaml_safe_load : string -> option yaml_value)
    (fs : filesystem) :
  (check_configuration yaml_safe_load fs = Raises AttributeError
   <-> exists text, fs !! "gateway/config.yaml" = Some text
                    /\ (yaml_safe_load text = Some YNull
                        \/ yaml_safe_load text = Some YOther))
  /\ (forall e, check_configuration yaml_safe_load fs = Raises e -> e = AttributeError)
  /\ (fs !! "gateway/config.yaml" = None ->
      check_configuration yaml_safe_load fs = Returns false)
  /\ (forall text,
        fs !! "gateway/config.yaml" = Some text -> yaml_safe_load text = None ->
        check_configuration yaml_safe_load fs = Returns false)
  /\ (forall text config,
        fs !! "gateway/config.yaml" = Some text ->
        yaml_safe_load text = Some (YMapping config) ->
        check_configuration yaml_safe_load fs
        = Returns (match found_placeholders config with [] => true | _ :: _ => false end
                   && check_env_file fs true))
  /\ (fs !! "gateway/.env" = None -> check_env_file fs true = true).
Proof.
  unfold check_configuration.
  split; [|split; [|split; [|split; [|split]]]].
  - destruct (fs !! "gateway/config.yaml") as [text|] eqn:Ef.
    + destruct (yaml_safe_load text) as [[|config|]|] eqn:Ey.
      * split; [eauto|reflexivity].
      * split; [destruct (found_placeholders config); discriminate|].
        intros (t & [= <-] & [H|H]); congruence.
      * split; [eauto|reflexivity].
      * split; [discriminate|]. intros (t & [= <-] & [H|H]); congruence.
    + split; [discriminate|]. intros (t & H & _). discriminate H.
  - intros e.
    destruct (fs !! "gateway/config.yaml") as [text|];
      [destruct (yaml_safe_load text) as [[|config|]|];
       [|destruct (found_placeholders config)| |]|];
      try discriminate; now intros [= <-].
  - intros ->. now rewrite check_env_file_and.
  - intros text -> ->. now rewrite check_env_file_and.
  - intros text config -> ->.
    destruct (found_placeholders config); [reflexivity|].
    now rewrite check_env_file_and.
  - unfold check_env_file. now intros ->.
Qed.

(** X22: the script and the manager read the environment file alike, and
    part ways when it is missing.  When [gateway/.env] exists, the script's
    loop yields the mapping [load_environment_variables] yields for the
    manager of the [gateway] directory, and the script accepts the file
    exactly when the manager's validation of [BACKEND_API_KEY] against the
    file alone is valid; when the file is missing the script lets it pass
    while the manager reports the variable. *)
Theorem script_and_manager_on_environment_file (fs : filesystem) :
  let self := ConfigurationManager.init "gateway" in
  (forall text,
     fs !! "gateway/.env" = Some text ->
     parse_env_file text = ConfigurationManager.load_environment_variables self fs
     /\ check_env_file fs true
        = ValidationResult.is_valid
            (ConfigurationManager.validate_environment_variables self ∅
               ["BACKEND_API_KEY"] fs))
  /\ (fs !! "gateway/.env" = None ->
      check_env_file fs true = true
      /\ ValidationResult.is_valid
           (ConfigurationManager.validate_environment_variables self ∅
              ["BACKEND_API_KEY"] fs) = false).
Proof.
  cbv zeta.
  assert (Hpath : ConfigurationManager.env_file (ConfigurationManager.init "gateway")
                  = "gateway/.env") by reflexivity.
  split.
  - intros text Hf.
    assert (Hparse : parse_env_file text
                     = ConfigurationManager.load_environment_variables
                         (ConfigurationManager.init "gateway") fs).
    { unfold ConfigurationManager.load_environment_variables. rewrite Hpath, Hf.
      reflexivity. }
    split; [exact Hparse|].
    rewrite validate_environment_variables_record, is_valid_record_all.
    unfold check_env_file. rewrite Hf, Hparse.
    unfold missing_vars, dict_update. cbn [List.filter omap list_omap].
    rewrite env_choice_missing. unfold env_missing.
    rewrite lookup_union, lookup_empty, (right_id None _).
    now destruct (match ConfigurationManager.load_environment_variables
                          (ConfigurationManager.init "gateway") fs !! "BACKEND_API_KEY" with
                  | Some v => PyStr.is_empty v
                  | None => true
                  end).
  - intros Hf. split; [unfold check_env_file; now rewrite Hf|].
    rewrite validate_environment_variables_record, is_valid_record_all.
    unfold ConfigurationManager.load_environment_variables. rewrite Hpath, Hf.
    reflexivity.
Qed.

Lemma found_placeholders_from config : forall found,
  for_each config (fun found item =>
    match item with
    | (key, PStr value) =>
        if PyStr.list_in value placeholders then found ++ [key +:+ ": " +:+ value]
        else found
    | _ => found
    end) found
  = found ++ omap (fun item =>
               match item with
               | (key, PStr value) =>
                   if PyStr.list_in value placeholders
                   then Some (key +:+ ": " +:+ value) else None
               | _ => None
               end) config.
Proof.
  unfold for_each.
  induction config as [|[key v] config IH]; intros found; cbn [fold_left omap list_omap].
  - now rewrite app_nil_r.
  - rewrite IH. destruct v as [| | |value]; try reflexivity.
    destruct (PyStr.list_in value placeholders); [|reflexivity].
    now rewrite <- app_assoc.
Qed.

Lemma list_in_cases value xs :
  PyStr.list_in value xs = true -> In value xs.
Proof. apply list_in_In. Qed.

(** X23: the script's placeholder scan and the manager's are not the same
    scan.  The script finds nothing exactly when no string value is one of
    its five sentinels.  A value the script flags and the manager's scan
    lets through can only be [YOUR_ROLE_NAME]; a value the manager's scan
    flags and the script lets through can only be the empty string or
    [your-bucket-name]. *)
Theorem script_and_manager_placeholders (config : pydict) :
  (found_placeholders config = []
   <-> forall key value, In (key, PStr value) config ->
                         PyStr.list_in value placeholders = false)
  /\ (forall value,
        PyStr.list_in value placeholders = true ->
        PyStr.list_in value ConfigurationManager.placeholder_values = false ->
        value = "YOUR_ROLE_NAME")
  /\ (forall value,
        PyStr.list_in value ConfigurationManager.placeholder_values = true ->
        PyStr.list_in value placeholders = false ->
        value = "" \/ value = "your-bucket-name")
  /\ (placeholder_free config = true ->
      forall key value, In (key, PStr value) config ->
                        PyStr.list_in value placeholders = true ->
                        value = "YOUR_ROLE_NAME").
Proof.
  assert (H2 : forall value,
             PyStr.list_in value placeholders = true ->
             PyStr.list_in value ConfigurationManager.placeholder_values = false ->
             value = "YOUR_ROLE_NAME").
  { intros value H1 Hn. apply list_in_In in H1. cbn in H1.
    destruct H1 as [<-|[<-|[<-|[<-|[<-|[]]]]]]; try reflexivity; discriminate Hn. }
  split; [|split; [exact H2|split]].
  - unfold found_placeholders. rewrite found_placeholders_from. cbn [app]. split.
    + intros Hn key value Hin.
      pose proof (omap_nil_none _ _ Hn _ Hin) as Hc. cbv beta iota in Hc.
      now destruct (PyStr.list_in value placeholders).
    + intros H. induction config as [|[key v] config IH]; [reflexivity|].
      cbn [omap list_omap]. destruct v as [| | |value].
      1-3: apply IH; intros k x Hin; apply (H k x); now right.
      rewrite (H key value) by now left.
      apply IH. intros k x Hin. apply (H k x). now right.
  - intros value H1 Hn. apply list_in_In in H1. cbn in H1.
    destruct H1 as [<-|[<-|[<-|[<-|[<-|[<-|[]]]]]]]; auto; discriminate Hn.
  - intros Hfree key value Hin Hs. apply H2; [exact Hs|].
    unfold placeholder_free in Hfree. rewrite forallb_forall in Hfree.
    specialize (Hfree _ Hin). cbn in Hfree. now apply negb_true_iff in Hfree.
Qed.

Lemma split_char_cons x s : exists piece pieces, PyText.split_char x s = piece :: pieces.
Proof.
  induction s as [|c s (piece & pieces & IH)]; cbn [PyText.split_char]; [eauto|].
  destruct (Ascii.eqb c x); [eauto|]. rewrite IH. eauto.
Qed.

Lemma startswith_first_piece x pattern : forall s,
  PyStr.contains_char x pattern = false ->
  PyStr.startswith pattern s = PyStr.startswith pattern (hd "" (PyText.split_char x s)).
Proof.
  unfold PyStr.contains_char.
  induction pattern as [|a pattern IH]; intros s Hx; [reflexivity|].
  cbn [PyStr.any] in Hx. apply orb_false_iff in Hx. destruct Hx as [Hxa Hx].
  destruct s as [|c s]; [reflexivity|].
  cbn [PyText.split_char]. destruct (Ascii.eqb c x) eqn:E.
  - apply Ascii.eqb_eq in E. subst c. cbn [hd PyStr.startswith].
    now rewrite Ascii.eqb_sym, Hxa.
  - destruct (split_char_cons x s) as (piece & pieces & Hs). rewrite Hs.
    cbn [hd PyStr.startswith]. rewrite (IH s Hx), Hs. reflexivity.
Qed.

(** A pattern without line feed occurs in a text exactly when it occurs in
    one of its lines. *)
Lemma contains_in_some_piece x pattern s :
  PyStr.is_empty pattern = false ->
  PyStr.contains_char x pattern = false ->
  PyText.contains pattern s = existsb (PyText.contains pattern) (PyText.split_char x s).
Proof.
  intros Hne Hx.
  assert (Hempty : PyText.contains pattern "" = false) by now destruct pattern.
  induction s as [|c s IH].
  - cbn [PyText.split_char existsb]. now rewrite orb_false_r.
  - pose proof (startswith_first_piece x pattern (String c s) Hx) as Hsw.
    cbn [PyText.contains]. rewrite IH. cbn [PyText.split_char] in *.
    destruct (Ascii.eqb c x).
    + cbn [hd] in Hsw. rewrite Hsw. cbn [existsb]. rewrite Hempty.
      now destruct pattern.
    + destruct (split_char_cons x s) as (piece & pieces & Hs). rewrite Hs in *.
      cbn [hd] in Hsw. cbn [existsb PyText.contains]. rewrite Hsw.
      now rewrite !orb_assoc.
Qed.

Lemma inner_ports_loop (hit : Z -> bool) ports : forall used,
  for_each ports (fun used port => if hit port then used ++ [port] else used) used
  = used ++ List.filter hit ports.
Proof.
  unfold for_each.
  induction ports as [|port ports IH]; intros used; cbn [fold_left List.filter].
  - now rewrite app_nil_r.
  - rewrite IH. destruct (hit port); [|reflexivity]. now rewrite <- app_assoc.
Qed.

Lemma used_ports_flat_map output :
  used_ports output
  = flat_map (fun line =>
      List.filter (fun port => PyText.contains (":" +:+ py_str (PInt port) +:+ " ") line)
        required_ports)
      (PyText.split_char PyStr.LF output).
Proof.
  unfold used_ports, for_each.
  generalize (PyText.split_char PyStr.LF output) as lines.
  assert (H : forall lines used,
             fold_left (fun used line =>
               fold_left (fun used port =>
                 if PyText.contains (":" +:+ py_str (PInt port) +:+ " ") line
                 then used ++ [port] else used) required_ports used) lines used
             = used ++ flat_map (fun line =>
                 List.filter (fun port =>
                   PyText.contains (":" +:+ py_str (PInt port) +:+ " ") line)
                   required_ports) lines).
  { induction lines as [|line lines IH]; intros used; cbn [fold_left flat_map].
    - now rewrite app_nil_r.
    - rewrite IH.
      pose proof (inner_ports_loop
                    (fun port => PyText.contains (":" +:+ py_str (PInt port) +:+ " ") line)
                    required_ports used) as Hi.
      unfold for_each in Hi. rewrite Hi. now rewrite <- app_assoc. }
  intros lines. apply (H lines []).
Qed.

Lemma filter_nil {A : Type} (f : A -> bool) xs :
  List.filter f xs = [] <-> forall x, In x xs -> f x = false.
Proof.
  induction xs as [|y xs IH]; cbn [List.filter]; [easy|].
  destruct (f y) eqn:E.
  - split; [discriminate|]. intros H. specialize (H y (or_introl eq_refl)). congruence.
  - rewrite IH. split; [intros H x [<-|Hx]; auto|intros H x Hx; apply H; now right].
Qed.

Lemma flat_map_nil {A B : Type} (f : A -> list B) xs :
  flat_map f xs = [] <-> forall x, In x xs -> f x = [].
Proof.
  induction xs as [|y xs IH]; cbn [flat_map]; [easy|].
  split.
  - intros H. apply app_eq_nil in H. destruct H as [Hy Hxs].
    intros x [<-|Hx]; [exact Hy|]. now apply IH.
  - intros H. rewrite (H y (or_introl eq_refl)). apply IH. intros x Hx. apply H. now right.
Qed.

(** X24: [check_ports] looks at the netstat output as a whole.  When
    [subprocess.run] raises an exception that [run_command] does not catch,
    [check_ports] raises it too; when the command fails in a way
    [run_command] handles (a non-zero status, a timeout, no such command)
    the ports are taken to be free; when it succeeds the check passes
    exactly when none of the four patterns [:8011 ] to [:8014 ] occurs
    anywhere in the trimmed output, the split into lines making no
    difference. *)
Theorem check_ports_reads_whole_output (subprocess_run : list string -> process) :
  (forall class,
     subprocess_run ["netstat"; "-tlnp"] = OtherException class ->
     check_ports subprocess_run = Raises (Uncaught class))
  /\ (forall output,
        run_command subprocess_run ["netstat"; "-tlnp"] = Returns (false, output) ->
        check_ports subprocess_run = Returns true)
  /\ (forall output,
        run_command subprocess_run ["netstat"; "-tlnp"] = Returns (true, output) ->
        exists free,
          check_ports subprocess_run = Returns free
          /\ (free = true
              <-> forall pattern, In pattern port_patterns ->
                                  PyText.contains pattern output = false)).
Proof.
  unfold check_ports.
  split; [|split].
  - intros class E. unfold run_command. now rewrite E.
  - now intros output ->.
  - intros output ->. cbn [negb].
    rewrite used_ports_flat_map.
    set (lines := PyText.split_char PyStr.LF output).
    assert (Hpat : forall pattern, In pattern port_patterns ->
               PyText.contains pattern output = existsb (PyText.contains pattern) lines).
    { intros pattern Hin. apply contains_in_some_piece.
      - cbn in Hin. destruct Hin as [<-|[<-|[<-|[<-|[]]]]]; reflexivity.
      - cbn in Hin. destruct Hin as [<-|[<-|[<-|[<-|[]]]]]; reflexivity. }
    destruct (flat_map _ lines) as [|port0 ports0] eqn:E.
    + exists true. split; [reflexivity|]. split; [|reflexivity].
      intros _ pattern Hin. rewrite (Hpat pattern Hin).
      unfold port_patterns in Hin. apply in_map_iff in Hin.
      destruct Hin as (port & <- & Hport).
      destruct (existsb _ lines) eqn:Ee; [|reflexivity].
      apply existsb_exists in Ee. destruct Ee as (line & Hline & Hc).
      pose proof (proj1 (flat_map_nil _ _) E line Hline) as Hf.
      pose proof (proj1 (filter_nil _ _) Hf port Hport) as Hn. cbv beta in Hn. congruence.
    + exists false. split; [reflexivity|]. split; [discriminate|].
      intros H. exfalso.
      assert (E' : flat_map (fun line =>
                    List.filter (fun port =>
                      PyText.contains (":" +:+ py_str (PInt port) +:+ " ") line)
                      required_ports) lines = []).
      { apply flat_map_nil. intros line Hline. apply filter_nil. intros port Hport.
        assert (Hin : In (":" +:+ py_str (PInt port) +:+ " ") port_patterns).
        { unfold port_patterns. apply in_map_iff. eauto. }
        specialize (H _ Hin). rewrite (Hpat _ Hin) in H.
        destruct (PyText.contains _ line) eqn:Hc; [|reflexivity].
        assert (Hex : existsb (PyText.contains (":" +:+ py_str (PInt port) +:+ " ")) lines
                      = true) by (apply existsb_exists; eauto).
        congruence. }
      rewrite E' in E. discriminate E.
Qed.

Lemma check_ports_reads_whole_output_witness :
  let run := fun _ : list string =>
    Exited 0 ("tcp 0 0 0.0.0.0:8012 0.0.0.0:* LISTEN 42/python status" +:+ PyStr.newline) in
  let output := "tcp 0 0 0.0.0.0:8012 0.0.0.0:* LISTEN 42/python status" in
  run_command run ["netstat"; "-tlnp"] = Returns (true, output)
  /\ In ":8012 " port_patterns
  /\ PyText.contains ":8012 " output = true
  /\ check_ports run = Returns false.
Proof.
  intros run output.
  assert (Hr : run_command run ["netstat"; "-tlnp"] = Returns (true, output))
    by (vm_compute; reflexivity).
  assert (Hin : In ":8012 " port_patterns) by (cbn; auto).
  assert (Hc : PyText.contains ":8012 " output = true) by (vm_compute; reflexivity).
  split; [exact Hr|]. split; [exact Hin|]. split; [exact Hc|].
  destruct (proj2 (proj2 (check_ports_reads_whole_output run)) output Hr)
    as (free & Hfree & Hiff).
  rewrite Hfree. f_equal. destruct free; [|reflexivity].
  pose proof (proj1 Hiff eq_refl _ Hin) as Hn. congruence.
Defined.

(** X25: [main] passes exactly when all five checks return true, a check
    that raises counting as failed.  When it passes the file system is left
    as it was; when it does not, [fix_setup.sh] holds the generated script,
    whatever was stored there before, and no other file is touched. *)
Theorem main_passes_iff_all_checks_pass (version_info : Z * Z * Z)
    (subprocess_run : list string -> process) (json_loads : string -> option json)
    (yaml_safe_load : string -> option yaml_value) (fix_script : string)
    (fs : filesystem) :
  let ran := main version_info subprocess_run json_loads yaml_safe_load fix_script fs in
  (snd ran = true
   <-> check_prerequisites version_info subprocess_run = Returns true
       /\ check_aws_credentials subprocess_run json_loads = Returns true
       /\ check_configuration yaml_safe_load fs = Returns true
       /\ check_ssl_certificates fs = true
       /\ check_ports subprocess_run = Returns true)
  /\ (snd ran = true -> fst ran = fs)
  /\ (snd ran = false ->
      fst ran !! "fix_setup.sh" = Some fix_script
      /\ forall path, path <> "fix_setup.sh" -> fst ran !! path = fs !! path).
Proof.
  cbv zeta.
  set (recorded := fun o : result bool =>
         match o with Returns b => b | Raises _ => false end).
  assert (Hrec : forall o, recorded o = true <-> o = Returns true).
  { intros [[|]|e]; cbn; split; congruence. }
  assert (Hmain :
    main version_info subprocess_run json_loads yaml_safe_load fix_script fs
    = if recorded (check_prerequisites version_info subprocess_run)
         && recorded (check_aws_credentials subprocess_run json_loads)
         && recorded (check_configuration yaml_safe_load fs)
         && check_ssl_certificates fs
         && recorded (check_ports subprocess_run)
      then (fs, true) else (generate_fix_script fix_script fs, false)).
  { unfold main, for_each. cbn [fold_left fst snd app].
    destruct (check_prerequisites version_info subprocess_run) as [[|]|e1];
      destruct (check_aws_credentials subprocess_run json_loads) as [[|]|e2];
      destruct (check_configuration yaml_safe_load fs) as [[|]|e3];
      destruct (check_ssl_certificates fs);
      destruct (check_ports subprocess_run) as [[|]|e5]; reflexivity. }
  rewrite Hmain.
  destruct (recorded (check_prerequisites version_info subprocess_run)
            && recorded (check_aws_credentials subprocess_run json_loads)
            && recorded (check_configuration yaml_safe_load fs)
            && check_ssl_certificates fs
            && recorded (check_ports subprocess_run)) eqn:E; cbn [fst snd].
  - rewrite !andb_true_iff, !Hrec in E.
    split; [split; [intros _; tauto|reflexivity]|].
    split; [reflexivity|discriminate].
  - split.
    + split; [discriminate|].
      intros (H1 & H2 & H3 & H4 & H5).
      apply Hrec in H1, H2, H3, H5. rewrite H1, H2, H3, H4, H5 in E. discriminate E.
    + split; [discriminate|]. intros _. unfold generate_fix_script.
      split; [apply lookup_insert_eq|intros path Hp; now apply lookup_insert_ne].
Qed.

End ScriptFacts.
